(** * simple_linter.py: a shallow embedding and its verified properties

    The program is a small JSON linter: it reads a file, decodes it, builds a
    heuristic map from array positions to source lines, and walks the decoded
    array appending messages to two lists held by a [SimpleLinter] instance.

    Conventions of the embedding.
    - A Python [str] is a Rocq [string] read as a sequence of code points
      U+0000..U+00FF, one [ascii] per character; [str.strip], [str.split],
      [str.lower] and [str.isupper] are given on that range as CPython
      defines them.
    - Python integers are [Z].
    - A decoded JSON document is a [json] value; a [dict] keeps its insertion
      order, so it is an association list with string keys.
    - The instance fields are the record [linter]; methods are functions in
      the monad [M], which threads the instance and lets a Python exception
      escape with the instance as it was when raised.
    - [print] calls are collected as a list of [printed] lines. *)

From stdpp Require Import base decidable option list strings pretty gmap.
From Stdlib Require Import ZArith Ascii String Lia.

Local Open Scope string_scope.
Local Open Scope Z_scope.

#[local] Set Warnings "-register-all".

(** ** Python strings *)

Module PyStr.

Definition code (c : ascii) : N := N_of_ascii c.

Definition in_range (lo hi : N) (c : ascii) : bool :=
  ((lo <=? code c) && (code c <=? hi))%N.

(** The characters [str.isspace] accepts, which [strip()] and [split()] with
    no argument remove: U+0009..U+000D, U+001C..U+0020, U+0085, U+00A0. *)
Definition is_space (c : ascii) : bool :=
  in_range 9 13 c || in_range 28 32 c || (code c =? 133)%N || (code c =? 160)%N.

(** Uppercase letters: A..Z, U+00C0..U+00D6 and U+00D8..U+00DE. *)
Definition is_upper (c : ascii) : bool :=
  in_range 65 90 c || in_range 192 214 c || in_range 216 222 c.

Definition lower_char (c : ascii) : ascii :=
  if is_upper c then ascii_of_N (code c + 32) else c.

(** [s.lower()] *)
Fixpoint lower (s : string) : string :=
  match s with
  | EmptyString => EmptyString
  | String c r => String (lower_char c) (lower r)
  end.

(** [c in s] for a one-character [c] *)
Fixpoint contains (c : ascii) (s : string) : bool :=
  match s with
  | EmptyString => false
  | String d r => Ascii.eqb c d || contains c r
  end.

(** [s.lstrip()] *)
Fixpoint lstrip (s : string) : string :=
  match s with
  | EmptyString => EmptyString
  | String c r => if is_space c then lstrip r else s
  end.

(** [s.rstrip()] *)
Fixpoint rstrip (s : string) : string :=
  match s with
  | EmptyString => EmptyString
  | String c r =>
      match rstrip r with
      | EmptyString => if is_space c then EmptyString else String c EmptyString
      | r' => String c r'
      end
  end.

(** [s.strip()] *)
Definition strip (s : string) : string := rstrip (lstrip s).

(** [s.startswith(p)] *)
Definition startswith (s p : string) : bool := String.prefix p s.

(** [s.split(sep)] for a one-character separator: never empty, and empty
    fields are kept. *)
Fixpoint split_char (sep : ascii) (s : string) : list string :=
  match s with
  | EmptyString => [EmptyString]
  | String c r =>
      if Ascii.eqb c sep then EmptyString :: split_char sep r
      else match split_char sep r with
           | w :: ws => String c w :: ws
           | [] => [String c EmptyString]
           end
  end.

(** [s.split()]: maximal runs of non-space characters. *)
Fixpoint split_ws_go (s : string) (word : string) : list string :=
  match s with
  | EmptyString => match word with EmptyString => [] | _ => [String.rev word] end
  | String c r =>
      if is_space c
      then match word with
           | EmptyString => split_ws_go r EmptyString
           | _ => String.rev word :: split_ws_go r EmptyString
           end
      else split_ws_go r (String c word)
  end.

Definition split_ws (s : string) : list string := split_ws_go s EmptyString.

(** [sep.join(l)] *)
Fixpoint join (sep : string) (l : list string) : string :=
  match l with
  | [] => EmptyString
  | [x] => x
  | x :: r => x +:+ sep +:+ join sep r
  end.

(** [x in l] for a list of strings *)
Definition mem (x : string) (l : list string) : bool :=
  existsb (String.eqb x) l.

Definition hex_digit (n : N) : ascii :=
  ascii_of_N (if (n <? 10)%N then 48 + n else 87 + n).

Definition hex_escape (c : ascii) : string :=
  String "\" (String "x" (String (hex_digit (code c / 16))
                           (String (hex_digit (code c mod 16)) EmptyString))).

(** What [repr] leaves as it is above U+007E: U+00A1..U+00FF but U+00AD. *)
Definition is_printable_high (c : ascii) : bool :=
  in_range 161 255 c && negb (code c =? 173)%N.

Definition repr_char (quote c : ascii) : string :=
  if Ascii.eqb c quote || Ascii.eqb c "\" then String "\" (String c EmptyString)
  else if (code c =? 9)%N then "\t"
  else if (code c =? 10)%N then "\n"
  else if (code c =? 13)%N then "\r"
  else if (code c <? 32)%N || (code c =? 127)%N then hex_escape c
  else if (code c <? 127)%N then String c EmptyString
  else if is_printable_high c then String c EmptyString
  else hex_escape c.

Fixpoint repr_body (quote : ascii) (s : string) : string :=
  match s with
  | EmptyString => EmptyString
  | String c r => repr_char quote c +:+ repr_body quote r
  end.

Definition dquote : ascii := ascii_of_N 34.

(** [repr(s)]: single quotes, unless [s] has a single quote and no double
    quote. *)
Definition repr (s : string) : string :=
  let quote : ascii :=
    if contains "'" s && negb (contains dquote s) then dquote else "'"%char in
  String quote (repr_body quote s +:+ String quote EmptyString).

End PyStr.

(** ** Decoded JSON values *)

(** A Python [float] as this program can observe it: the text [str] gives
    for it and whether it is non-zero (its truth value). *)
Record pyfloat := PyFloat { float_repr : string; float_nonzero : bool }.

(** What [json.loads] returns: [None], [bool], [int], [float], [str], [list]
    and [dict] with [str] keys. *)
Inductive json :=
| JNull
| JBool (b : bool)
| JInt (z : Z)
| JFloat (f : pyfloat)
| JStr (s : string)
| JArr (l : list json)
| JObj (m : list (string * json)).

Definition is_list (v : json) : bool :=
  match v with JArr _ => true | _ => false end.

Definition is_dict (v : json) : bool :=
  match v with JObj _ => true | _ => false end.

Definition is_str (v : json) : bool :=
  match v with JStr _ => true | _ => false end.

(** [type(v).__name__] *)
Definition type_name (v : json) : string :=
  match v with
  | JNull => "NoneType"
  | JBool _ => "bool"
  | JInt _ => "int"
  | JFloat _ => "float"
  | JStr _ => "str"
  | JArr _ => "list"
  | JObj _ => "dict"
  end.

(** [bool(v)] *)
Definition truthy (v : json) : bool :=
  match v with
  | JNull => false
  | JBool b => b
  | JInt z => negb (z =? 0)
  | JFloat f => float_nonzero f
  | JStr s => negb (String.eqb s "")
  | JArr l => match l with [] => false | _ => true end
  | JObj m => match m with [] => false | _ => true end
  end.

(** [repr(v)] *)
Fixpoint py_repr (v : json) : string :=
  match v with
  | JNull => "None"
  | JBool true => "True"
  | JBool false => "False"
  | JInt z => pretty z
  | JFloat f => float_repr f
  | JStr s => PyStr.repr s
  | JArr l => "[" +:+ PyStr.join ", " (map py_repr l) +:+ "]"
  | JObj m =>
      "{" +:+ PyStr.join ", "
                (map (fun kv => PyStr.repr (fst kv) +:+ ": " +:+ py_repr (snd kv)) m)
          +:+ "}"
  end.

(** [str(v)], which an f-string applies to an interpolated value. *)
Definition py_str (v : json) : string :=
  match v with
  | JStr s => s
  | _ => py_repr v
  end.

(** [v == s] for a string [s] *)
Definition eq_str (v : json) (s : string) : bool :=
  match v with
  | JStr t => String.eqb t s
  | _ => false
  end.

(** [v in l] for a list of strings [l] *)
Definition in_strs (v : json) (l : list string) : bool :=
  existsb (eq_str v) l.

(** ** Dictionaries *)

(** [k in d] *)
Fixpoint dict_has (k : string) (d : list (string * json)) : bool :=
  match d with
  | [] => false
  | (k', _) :: r => String.eqb k k' || dict_has k r
  end.

(** [d.get(k)] without a default *)
Fixpoint dict_lookup (k : string) (d : list (string * json)) : option json :=
  match d with
  | [] => None
  | (k', v) :: r => if String.eqb k k' then Some v else dict_lookup k r
  end.

(** [d.get(k, default)] *)
Definition dict_get (k : string) (default : json) (d : list (string * json)) : json :=
  match dict_lookup k d with
  | Some v => v
  | None => default
  end.

(** ** The instance, exceptions and the method monad *)

(** The fields of a [SimpleLinter]. *)
Record linter := Linter {
  errors : list string;
  warnings : list string;
  line_map : gmap Z Z
}.

(** [SimpleLinter()] *)
Definition init : linter := Linter [] [] ∅.

(** The exceptions that can arise. [AttributeError t a] is "'t' object has
    no attribute 'a'"; [TypeError t] is "object of type 't' has no len()";
    [OtherError n] is any other exception of [open] or [read], by name. *)
Inductive exn :=
| FileNotFoundError
| OtherError (name : string)
| KeyError (key : string)
| AttributeError (type attr : string)
| TypeError (type : string).

Inductive result (A : Type) :=
| Ok (a : A) (self : linter)
| Raise (e : exn) (self : linter).
Arguments Ok {A} a self.
Arguments Raise {A} e self.

Definition M (A : Type) : Type := linter -> result A.

Definition ret {A} (a : A) : M A := fun self => Ok a self.

Definition bind {A B} (m : M A) (k : A -> M B) : M B :=
  fun self =>
    match m self with
    | Ok a self' => k a self'
    | Raise e self' => Raise e self'
    end.

Definition raise {A} (e : exn) : M A := fun self => Raise e self.

Notation "x <- m ;; k" := (bind m (fun x => k))
  (at level 100, m at next level, right associativity).
Notation "m ;;; k" := (bind m (fun _ => k))
  (at level 100, right associativity).

(** [if b: body] *)
Definition when (b : bool) (body : M unit) : M unit :=
  if b then body else ret tt.

(** [self.errors.append(msg)] *)
Definition add_error (msg : string) : M unit :=
  fun self => Ok tt (Linter (errors self ++ [msg]) (warnings self) (line_map self)).

(** [self.warnings.append(msg)] *)
Definition add_warning (msg : string) : M unit :=
  fun self => Ok tt (Linter (errors self) (warnings self ++ [msg]) (line_map self)).

(** [self.line_map[k] = v] *)
Definition set_line (k v : Z) : M unit :=
  fun self => Ok tt (Linter (errors self) (warnings self) (<[k := v]> (line_map self))).

(** [for i, item in enumerate(l, start): body] *)
Fixpoint for_enumerate {A} (start : Z) (l : list A) (body : Z -> A -> M unit) : M unit :=
  match l with
  | [] => ret tt
  | item :: rest => body start item ;;; for_enumerate (start + 1) rest body
  end.

(** Methods of a decoded value that fail on the wrong type. *)

(** [v.strip()] *)
Definition py_strip (v : json) : M string :=
  match v with
  | JStr s => ret (PyStr.strip s)
  | _ => raise (AttributeError (type_name v) "strip")
  end.

(** [v.lower()] *)
Definition py_lower (v : json) : M string :=
  match v with
  | JStr s => ret (PyStr.lower s)
  | _ => raise (AttributeError (type_name v) "lower")
  end.

(** [v.split()] *)
Definition py_split (v : json) : M (list string) :=
  match v with
  | JStr s => ret (PyStr.split_ws s)
  | _ => raise (AttributeError (type_name v) "split")
  end.

(** [len(v)] *)
Definition py_len (v : json) : M Z :=
  match v with
  | JStr s => ret (Z.of_nat (String.length s))
  | JArr l => ret (Z.of_nat (List.length l))
  | JObj m => ret (Z.of_nat (List.length m))
  | _ => raise (TypeError (type_name v))
  end.

(** ** The linter's methods *)

(** [_build_line_map]: the loop over [enumerate(lines, 1)], with the local
    [current_item] threaded through. *)
Fixpoint build_line_map_loop (line_num : Z) (lines : list string)
    (current_item : Z) : M Z :=
  match lines with
  | [] => ret current_item
  | line :: rest =>
      if PyStr.contains "{" line && (current_item =? -1) then
        let current_item := 0 in
        set_line current_item line_num ;;;
        build_line_map_loop (line_num + 1) rest current_item
      else if PyStr.contains "{" line && (current_item >=? 0) then
        let current_item := current_item + 1 in
        set_line current_item line_num ;;;
        build_line_map_loop (line_num + 1) rest current_item
      else if PyStr.contains "}" line && PyStr.contains "," line then
        build_line_map_loop (line_num + 1) rest current_item
      else
        build_line_map_loop (line_num + 1) rest current_item
  end.

Definition newline : ascii := ascii_of_N 10.

Definition _build_line_map (content : string) : M unit :=
  let lines := PyStr.split_char newline content in
  let current_item := -1 in
  build_line_map_loop 1 lines current_item ;;; ret tt.

(** [_get_line_info] *)
Definition _get_line_info (index : Z) : M string :=
  fun self =>
    Ok (match line_map self !! index with
        | Some line_num =>
            if negb (line_num =? 0) then " (line " +:+ pretty line_num +:+ ")" else ""
        | None => ""
        end) self.

(** [_check_structure] *)
Definition _check_structure (data : json) : M unit :=
  match data with
  | JArr items =>
      when (Z.of_nat (List.length items) =? 0) (add_warning "Array is empty") ;;;
      for_enumerate 0 items (fun i item =>
        when (negb (is_dict item))
          (line_info <- _get_line_info i ;;
           add_error ("Item " +:+ pretty i +:+ " should be an object" +:+ line_info)))
  | _ => add_error "JSON should be an array"
  end.

(** [d[k]] *)
Definition dict_item (k : string) (d : list (string * json)) : M json :=
  match dict_lookup k d with
  | Some v => ret v
  | None => raise (KeyError k)
  end.

(** [any(f(x) for x in l)], stopping at the first true *)
Fixpoint any_m {A} (f : A -> M bool) (l : list A) : M bool :=
  match l with
  | [] => ret false
  | x :: rest => b <- f x ;; if b then ret true else any_m f rest
  end.

(** [a and b], where [b] is only evaluated when [a] holds *)
Definition and_then (a : bool) (b : M bool) : M bool :=
  if a then b else ret false.

(** [_validate_data_classification] *)
Definition _validate_data_classification (value : json) (line_info : string) : M unit :=
  let valid_values := ["DCL1"; "DCL2"; "DCL3"; "DCL4"] in
  when (truthy value && negb (in_strs value valid_values))
    (add_warning ("Invalid Data Classification '" +:+ py_str value
                  +:+ "' (should be one of: " +:+ PyStr.join ", " valid_values
                  +:+ ")" +:+ line_info)).

(** [_validate_business_groups] *)
Definition _validate_business_groups (value : json) (line_info : string) : M unit :=
  short <- and_then (truthy value) (n <- py_len value ;; ret (n <? 2)) ;;
  when short
    (add_warning ("Business Groups value '" +:+ py_str value
                  +:+ "' is too short (minimum 2 characters)" +:+ line_info)) ;;;
  let valid_prefixes := ["gip"; "eng"; "ops"; "fin"] in
  bad <- and_then (truthy value)
           (found <- any_m (fun prefix => s <- py_lower value ;;
                                          ret (PyStr.startswith s prefix))
                           valid_prefixes ;;
            ret (negb found)) ;;
  when bad
    (add_warning ("Business Groups '" +:+ py_str value
                  +:+ "' should start with one of: "
                  +:+ PyStr.join ", " valid_prefixes +:+ line_info)).

(** [word[0].isupper()] for a word that is not empty *)
Definition first_isupper (word : string) : bool :=
  match word with
  | String c _ => PyStr.is_upper c
  | EmptyString => false
  end.

(** [_validate_owning_business_group] *)
Definition _validate_owning_business_group (value : json) (line_info : string) : M unit :=
  short <- and_then (truthy value) (n <- py_len value ;; ret (n <? 5)) ;;
  when short
    (add_warning ("Owning Business group '" +:+ py_str value
                  +:+ "' is too short (minimum 5 characters)" +:+ line_info)) ;;;
  bad <- and_then (truthy value)
           (words <- py_split value ;;
            ret (negb (existsb first_isupper
                         (filter (fun word => negb (String.eqb word "")) words)))) ;;
  when bad
    (add_warning ("Owning Business group '" +:+ py_str value
                  +:+ "' should have proper capitalization" +:+ line_info)).

(** [_validate_environment] *)
Definition _validate_environment (value : json) (line_info : string) : M unit :=
  let valid_environments :=
    ["dev"; "development"; "staging"; "stage"; "prod"; "production"] in
  bad <- and_then (truthy value)
           (s <- py_lower value ;; ret (negb (PyStr.mem s valid_environments))) ;;
  when bad
    (add_warning ("Invalid Environment '" +:+ py_str value
                  +:+ "' (should be one of: " +:+ PyStr.join ", " valid_environments
                  +:+ ")" +:+ line_info)).

(** [_check_specific_tag_values]; the index is passed and not used. *)
Definition _check_specific_tag_values (item : list (string * json)) (index : Z)
    (line_info : string) : M unit :=
  let tag_key := dict_get "tagKey" (JStr "") item in
  let value := dict_get "value" (JStr "") item in
  if eq_str tag_key "Data Classification" then
    _validate_data_classification value line_info
  else if eq_str tag_key "Business Groups" then
    _validate_business_groups value line_info
  else if eq_str tag_key "Owning Business group" then
    _validate_owning_business_group value line_info
  else if eq_str tag_key "Environment" then
    _validate_environment value line_info
  else ret tt.

(** The body of the loop of [_check_content] for an element that is a dict. *)
Definition check_item (i : Z) (item : list (string * json)) : M unit :=
  let tag_key := dict_get "tagKey" (JStr ("Item " +:+ pretty i)) item in
  line_info <- _get_line_info i ;;
  when (negb (dict_has "tagKey" item))
    (add_error ("Missing 'tagKey' at position " +:+ pretty i +:+ line_info)) ;;;
  when (negb (dict_has "value" item))
    (add_error ("Missing 'value' for '" +:+ py_str tag_key +:+ "'" +:+ line_info)) ;;;
  empty_key <- and_then (dict_has "tagKey" item)
                 (v <- dict_item "tagKey" item ;; s <- py_strip v ;;
                  ret (String.eqb s "")) ;;
  when empty_key
    (add_warning ("Empty 'tagKey' at position " +:+ pretty i +:+ line_info)) ;;;
  empty_value <- and_then (dict_has "value" item)
                   (v <- dict_item "value" item ;; s <- py_strip v ;;
                    ret (String.eqb s "")) ;;
  when empty_value
    (add_warning ("Empty 'value' for '" +:+ py_str tag_key +:+ "'" +:+ line_info)) ;;;
  _check_specific_tag_values item i line_info.

(** [_check_content] *)
Definition _check_content (data : json) : M unit :=
  match data with
  | JArr items =>
      for_enumerate 0 items (fun i item =>
        match item with
        | JObj d => check_item i d
        | _ => ret tt
        end)
  | _ => ret tt
  end.

(** ** Output and the entry point *)

(** A line written by [print]:
    - [PNotFound f]: "❌ Error: File 'f' not found"
    - [PInvalidJSON m n]: "❌ Error: Invalid JSON - m at line n"
    - [PNoIssues]: "✅ No issues found!"
    - [PErrorCount n]: "❌ n Error(s):"
    - [PWarningCount n]: "⚠️  n Warning(s):"
    - [PBullet t]: "  • t" *)
Inductive printed :=
| PNotFound (filename : string)
| PInvalidJSON (msg : string) (lineno : Z)
| PNoIssues
| PErrorCount (n : Z)
| PWarningCount (n : Z)
| PBullet (text : string).

(** [_print_results] *)
Definition _print_results (self : linter) : list printed :=
  match errors self, warnings self with
  | [], [] => [PNoIssues]
  | _, _ =>
      (match errors self with
       | [] => []
       | _ => PErrorCount (Z.of_nat (List.length (errors self)))
              :: map PBullet (errors self)
       end) ++
      (match warnings self with
       | [] => []
       | _ => PWarningCount (Z.of_nat (List.length (warnings self)))
              :: map PBullet (warnings self)
       end)
  end.

(** [json.JSONDecodeError], with the two attributes the program reads. *)
Record JSONDecodeError := DecodeError { msg : string; lineno : Z }.

(** What the program takes from outside: [open(filename).read()], which
    gives the text or raises, and [json.loads]. *)
Record runtime := Runtime {
  read_file : string -> exn + string;
  json_loads : string -> JSONDecodeError + json
}.

(** One call of [lint_file]: what it printed, and whether it returned (with
    which value) or let an exception escape, with the instance afterwards. *)
Record run := Run {
  stdout : list printed;
  outcome : result bool
}.

(** [lint_file] *)
Definition lint_file (rt : runtime) (filename : string) (self : linter) : run :=
  let self := Linter [] (warnings self) (line_map self) in
  let self := Linter (errors self) [] (line_map self) in
  let self := Linter (errors self) (warnings self) ∅ in
  match read_file rt filename with
  | inl FileNotFoundError => Run [PNotFound filename] (Ok false self)
  | inl e => Run [] (Raise e self)
  | inr content =>
      match json_loads rt content with
      | inl e => Run [PInvalidJSON (msg e) (lineno e)] (Ok false self)
      | inr data =>
          match (_build_line_map content ;;;
                 _check_structure data ;;;
                 _check_content data) self with
          | Ok _ self =>
              Run (_print_results self)
                  (Ok (Z.of_nat (List.length (errors self)) =? 0) self)
          | Raise e self => Run [] (Raise e self)
          end
      end
  end.

(** ** Definitions used to state the properties *)

(** The line index as the specification words it: the lines are scanned in
    order, and the k-th line (from 0) that contains an opening brace gives
    index k its 1-based line number. *)
Fixpoint brace_line_numbers (line_num : Z) (lines : list string) : list Z :=
  match lines with
  | [] => []
  | line :: rest =>
      if PyStr.contains "{" line
      then line_num :: brace_line_numbers (line_num + 1) rest
      else brace_line_numbers (line_num + 1) rest
  end.

Definition spec_line_index (content : string) : list Z :=
  brace_line_numbers 1 (PyStr.split_char newline content).

(** The line recorded for an index, if any. *)
Definition recorded (content : string) (index : Z) : option Z :=
  if decide (0 <= index) then spec_line_index content !! Z.to_nat index else None.

(** The suffix the lookup contract asks for. *)
Definition spec_line_info (content : string) (index : Z) : string :=
  match recorded content index with
  | Some n => " (line " +:+ pretty n +:+ ")"
  | None => ""
  end.

(** [record_from k l m] binds [k], [k+1], ... to the elements of [l]. *)
Fixpoint record_from (k : Z) (l : list Z) (m : gmap Z Z) : gmap Z Z :=
  match l with
  | [] => m
  | x :: r => record_from (k + 1) r (<[k := x]> m)
  end.

(** The line-info suffix an instance gives for an index. *)
Definition line_info_of (self : linter) (i : Z) : string :=
  match _get_line_info i self with
  | Ok s _ => s
  | Raise _ _ => ""
  end.

(** The allowed environments and the warning of the Environment rule. *)
Definition environments : list string :=
  ["dev"; "development"; "staging"; "stage"; "prod"; "production"].

Definition environment_warning (v line_info : string) : string :=
  "Invalid Environment '" +:+ v
  +:+ "' (should be one of: dev, development, staging, stage, prod, production)"
  +:+ line_info.

(** JSON text of a one-element array holding one tag object, on one line. *)
Definition quoted (s : string) : string :=
  String PyStr.dquote (s +:+ String PyStr.dquote "").

Definition tag_text (k v : string) : string :=
  "[{" +:+ quoted "tagKey" +:+ ":" +:+ quoted k +:+ ","
       +:+ quoted "value" +:+ ":" +:+ quoted v +:+ "}]".

Definition tag_data (k v : string) : json :=
  JArr [JObj [("tagKey", JStr k); ("value", JStr v)]].


(** A runtime in which every file holds [text] and decodes to [data]. *)
Definition one_file_runtime (text : string) (data : json) : runtime :=
  Runtime (fun _ => inr text) (fun _ => inr data).

(** The warnings of the Business Groups rule. *)
Definition too_short_warning (v line_info : string) : string :=
  "Business Groups value '" +:+ v +:+ "' is too short (minimum 2 characters)"
  +:+ line_info.

Definition prefix_warning (v line_info : string) : string :=
  "Business Groups '" +:+ v +:+ "' should start with one of: gip, eng, ops, fin"
  +:+ line_info.

Definition has_valid_prefix (v : string) : bool :=
  existsb (PyStr.startswith (PyStr.lower v)) ["gip"; "eng"; "ops"; "fin"].

(** An object has a non-string field when "tagKey" or "value" is present and
    bound to something that is not a string. *)
Definition nonstring_field (item : list (string * json)) : Prop :=
  exists v : json,
    (dict_lookup "tagKey" item = Some v \/ dict_lookup "value" item = Some v) /\
    is_str v = false.

(** What escapes from the emptiness checks. *)
Definition strip_error (e : exn) : Prop :=
  exists t : string, e = AttributeError t "strip".

(** The one-line text [{"tagKey":1,"value":"x"}] and what it decodes to. *)
Definition numeric_key_text : string :=
  "[{" +:+ quoted "tagKey" +:+ ":1," +:+ quoted "value" +:+ ":" +:+ quoted "x" +:+ "}]".

Definition numeric_key_data : json :=
  JArr [JObj [("tagKey", JInt 1); ("value", JStr "x")]].

(** The instance a call of [lint_file] leaves behind. *)
Definition instance_after (r : run) : linter :=
  match outcome r with
  | Ok _ s => s
  | Raise _ s => s
  end.

(** The one-line text [{"value":"x"}] and what it decodes to. *)
Definition missing_key_text : string :=
  "[{" +:+ quoted "value" +:+ ":" +:+ quoted "x" +:+ "}]".

Definition missing_key_data : json := JArr [JObj [("value", JStr "x")]].

(** ** The command line *)

(** What [main] writes: its own usage line, "Usage: python simple_linter.py
    <json_file>", or a line of [lint_file]. *)
Inductive console :=
| CUsage
| CLine (p : printed).

(** One run of the program: what it wrote, and the status it exits with or
    the exception that ends it. *)
Record process := Process {
  written : list console;
  status : exn + Z
}.

(** [main], with [argv] standing for [sys.argv]: the first case is
    [len(sys.argv) == 2], with [sys.argv[1]] bound to [filename]. *)
Definition main (rt : runtime) (argv : list string) : process :=
  match argv with
  | [_; filename] =>
      let linter := init in
      let r := lint_file rt filename linter in
      match outcome r with
      | Ok success _ =>
          Process (map CLine (stdout r)) (inr (if success then 0 else 1))
      | Raise e _ => Process (map CLine (stdout r)) (inl e)
      end
  | _ => Process [CUsage] (inr 1)
  end.

(** ** Definitions used to state further properties *)

(** The instance a computation ends with, returned or raised. *)
Definition final {A} (r : result A) : linter :=
  match r with
  | Ok _ s => s
  | Raise _ s => s
  end.

(** [s'] has the line map of [s], and its lists are those of [s] with
    messages added at the end. *)
Definition appends_only (s s' : linter) : Prop :=
  line_map s' = line_map s /\
  (exists e : list string, errors s' = (errors s ++ e)%list) /\
  (exists w : list string, warnings s' = (warnings s ++ w)%list).

(** [s'] differs from [s] at most by warnings added at the end. *)
Definition warns_only (s s' : linter) : Prop :=
  line_map s' = line_map s /\
  errors s' = errors s /\
  (exists w : list string, warnings s' = (warnings s ++ w)%list).

Definition appends {A} (m : M A) : Prop :=
  forall self, appends_only self (final (m self)).

Definition warns {A} (m : M A) : Prop :=
  forall self, warns_only self (final (m self)).

(** The tag keys that have a rule. *)
Definition registered_keys : list string :=
  ["Data Classification"; "Business Groups"; "Owning Business group"; "Environment"].

(** The errors of the structure check for the elements from index [start]. *)
Fixpoint structure_errors (self : linter) (start : Z) (items : list json) : list string :=
  match items with
  | [] => []
  | item :: rest =>
      (if is_dict item then []
       else ["Item " +:+ pretty start +:+ " should be an object"
             +:+ line_info_of self start])
      ++ structure_errors self (start + 1) rest
  end.

(** The errors of the field check for one object, and for the elements from
    index [start]. *)
Definition missing_errors (self : linter) (i : Z) (item : list (string * json)) : list string :=
  (if dict_has "tagKey" item then []
   else ["Missing 'tagKey' at position " +:+ pretty i +:+ line_info_of self i])
  ++
  (if dict_has "value" item then []
   else ["Missing 'value' for '"
         +:+ py_str (dict_get "tagKey" (JStr ("Item " +:+ pretty i)) item)
         +:+ "'" +:+ line_info_of self i]).

Fixpoint content_errors (self : linter) (start : Z) (items : list json) : list string :=
  match items with
  | [] => []
  | item :: rest =>
      (match item with
       | JObj d => missing_errors self start d
       | _ => []
       end)
      ++ content_errors self (start + 1) rest
  end.

(** An element that is an object with both required keys. *)
Definition has_both_keys (item : json) : bool :=
  match item with
  | JObj d => dict_has "tagKey" d && dict_has "value" d
  | _ => false
  end.

(** The texts of the bulleted lines of a report. *)
Fixpoint bullets (out : list printed) : list string :=
  match out with
  | [] => []
  | PBullet t :: rest => t :: bullets rest
  | _ :: rest => bullets rest
  end.

(** The warnings of the Data Classification and Owning Business group rules. *)
Definition classifications : list string := ["DCL1"; "DCL2"; "DCL3"; "DCL4"].

Definition classification_warning (v line_info : string) : string :=
  "Invalid Data Classification '" +:+ v
  +:+ "' (should be one of: DCL1, DCL2, DCL3, DCL4)" +:+ line_info.

Definition owning_short_warning (v line_info : string) : string :=
  "Owning Business group '" +:+ v +:+ "' is too short (minimum 5 characters)"
  +:+ line_info.

Definition capitalization_warning (v line_info : string) : string :=
  "Owning Business group '" +:+ v +:+ "' should have proper capitalization"
  +:+ line_info.

(** The warnings of the emptiness checks. *)
Definition empty_key_warning (i : Z) (line_info : string) : string :=
  "Empty 'tagKey' at position " +:+ pretty i +:+ line_info.

Definition empty_value_warning (label line_info : string) : string :=
  "Empty 'value' for '" +:+ label +:+ "'" +:+ line_info.

(** An element with nothing to report: an object whose "tagKey" and "value"
    are strings that are not blank, with a tag key that has no rule. *)
Definition plain_item (item : json) : Prop :=
  exists (d : list (string * json)) (k v : string),
    item = JObj d /\
    dict_lookup "tagKey" d = Some (JStr k) /\
    dict_lookup "value" d = Some (JStr v) /\
    PyStr.strip k <> "" /\ PyStr.strip v <> "" /\
    ~ In k registered_keys.


(** The line map [lint_file] builds from the text of the file. *)
Definition text_line_map (content : string) : gmap Z Z :=
  record_from 0 (spec_line_index content) ∅.

(** * Properties *)

(** ** Samples of the string and value functions *)

Example py_str_samples :
  py_str (JStr "a'b") = "a'b" /\
  py_str (JInt (-12)) = "-12" /\
  py_str (JArr [JStr "a'b"; JNull; JBool true]) = String "[" (String PyStr.dquote "a'b") +:+ String PyStr.dquote ", None, True]" /\
  py_str (JObj [("k", JInt 1); ("l", JArr [])]) = "{'k': 1, 'l': []}".
Proof. repeat split; vm_compute; reflexivity. Qed.

Example str_samples :
  PyStr.strip "  a b  " = "a b" /\
  PyStr.strip "   " = "" /\
  PyStr.split_ws "  ab  c d " = ["ab"; "c"; "d"] /\
  PyStr.split_char "," "a,,b," = ["a"; ""; "b"; ""] /\
  PyStr.split_char "," "" = [""] /\
  PyStr.lower "ProD" = "prod" /\
  PyStr.join ", " ["a"; "b"; "c"] = "a, b, c".
Proof. repeat split; vm_compute; reflexivity. Qed.

(** ** The line index *)

Module LineIndex.

Lemma lookup_record_from (l : list Z) : forall (k : Z) (m : gmap Z Z) (i : Z),
  record_from k l m !! i =
  if decide (k <= i < k + Z.of_nat (List.length l))
  then l !! Z.to_nat (i - k) else m !! i.
Proof.
  induction l as [|x r IH]; intros k m i; simpl.
  - destruct (decide _) as [H|H]; [lia | reflexivity].
  - rewrite IH. destruct (decide (k + 1 <= i < _)) as [H1|H1].
    + destruct (decide _) as [H2|H2]; [|lia].
      replace (Z.to_nat (i - k)) with (S (Z.to_nat (i - (k + 1)))) by lia.
      reflexivity.
    + destruct (decide (k = i)) as [->|Hne].
      * rewrite lookup_insert_eq. destruct (decide _) as [H2|H2]; [|lia].
        replace (i - i) with 0 by lia. reflexivity.
      * rewrite lookup_insert_ne by assumption.
        destruct (decide _) as [H2|H2]; [lia | reflexivity].
Qed.

(** What the loop of the builder computes, from any counter reached by the
    loop itself. *)
Lemma build_line_map_loop_spec (lines : list string) :
  forall (n c : Z) (self : linter), -1 <= c ->
    build_line_map_loop n lines c self =
    Ok (c + Z.of_nat (List.length (brace_line_numbers n lines)))
       (Linter (errors self) (warnings self)
               (record_from (c + 1) (brace_line_numbers n lines) (line_map self))).
Proof.
  induction lines as [|line rest IH]; intros n c self Hc; simpl.
  - unfold ret. destruct self; simpl. f_equal. lia.
  - destruct (PyStr.contains "{" line) eqn:Hb; simpl.
    + destruct (c =? -1) eqn:Hm1.
      * apply Z.eqb_eq in Hm1. subst c. unfold bind, set_line.
        rewrite IH by lia. simpl. f_equal. lia.
      * apply Z.eqb_neq in Hm1.
        replace (c >=? 0) with true by (symmetry; apply Z.geb_le; lia).
        unfold bind, set_line. rewrite IH by lia. simpl. f_equal. lia.
    + destruct (PyStr.contains "}" line && PyStr.contains "," line);
        apply IH; assumption.
Qed.

Lemma build_line_map_spec (content : string) (self : linter) :
  _build_line_map content self =
  Ok tt (Linter (errors self) (warnings self)
                (record_from 0 (spec_line_index content) (line_map self))).
Proof.
  unfold _build_line_map, bind.
  rewrite build_line_map_loop_spec by lia. reflexivity.
Qed.

Lemma build_line_map_lookup (content : string) (i : Z) :
  record_from 0 (spec_line_index content) ∅ !! i = recorded content i.
Proof.
  rewrite lookup_record_from. unfold recorded.
  destruct (decide (0 <= i)) as [Hi|Hi].
  - destruct (decide _) as [H|H].
    + f_equal. lia.
    + rewrite lookup_empty. symmetry. apply lookup_ge_None. lia.
  - destruct (decide _) as [H|H]; [lia | apply lookup_empty].
Qed.

(** Line numbers start where the scan starts and grow along the list. *)
Lemma brace_line_numbers_lb (lines : list string) :
  forall (n : Z) (i : nat) (a : Z),
    brace_line_numbers n lines !! i = Some a -> n <= a.
Proof.
  induction lines as [|line rest IH]; intros n i a; simpl.
  - intros H. discriminate.
  - destruct (PyStr.contains "{" line).
    + destruct i as [|i]; simpl.
      * intros [= <-]. lia.
      * intros H. apply IH in H. lia.
    + intros H. apply IH in H. lia.
Qed.

Lemma brace_line_numbers_adjacent (lines : list string) :
  forall (n : Z) (i : nat) (a b : Z),
    brace_line_numbers n lines !! i = Some a ->
    brace_line_numbers n lines !! S i = Some b ->
    a < b.
Proof.
  induction lines as [|line rest IH]; intros n i a b; simpl.
  - intros H. discriminate.
  - destruct (PyStr.contains "{" line).
    + destruct i as [|i]; simpl.
      * intros [= <-] H. apply brace_line_numbers_lb in H. lia.
      * apply IH.
    + apply IH.
Qed.

Lemma recorded_positive (content : string) (i n : Z) :
  recorded content i = Some n -> 1 <= n.
Proof.
  unfold recorded, spec_line_index. destruct (decide _); [|discriminate].
  apply brace_line_numbers_lb.
Qed.

(** C8. The builder scans the lines of the raw text in order: the first line
    with an opening brace gives index 0 its 1-based line number and every
    later such line gives the next index its own, which is the index the
    specification describes ([recorded]); the lookup of an index returns
    " (line N)" when the index was recorded with line N, and the empty
    string otherwise. *)
Theorem C8_line_index_contract (content : string) (es ws : list string) :
  exists self' : linter,
    _build_line_map content (Linter es ws ∅) = Ok tt self' /\
    errors self' = es /\ warnings self' = ws /\
    forall index : Z,
      line_map self' !! index = recorded content index /\
      _get_line_info index self' = Ok (spec_line_info content index) self'.
Proof.
  eexists. split; [apply build_line_map_spec|]. simpl.
  split; [reflexivity|]. split; [reflexivity|]. intros index.
  pose proof (build_line_map_lookup content index) as Hl.
  split; [exact Hl|].
  unfold _get_line_info, spec_line_info. simpl. rewrite Hl.
  destruct (recorded content index) as [n|] eqn:Hr; [|reflexivity].
  apply recorded_positive in Hr.
  replace (n =? 0) with false by (symmetry; apply Z.eqb_neq; lia).
  reflexivity.
Qed.

(** C9. For every raw text, the keys of the line map the builder produces
    are exactly 0, 1, ..., n-1 for some n (none when n is 0), and the line
    bound to index i+1 is later than the line bound to index i. *)
Theorem C9_line_map_contiguous_increasing (content : string) (es ws : list string) :
  exists (self' : linter) (n : Z),
    _build_line_map content (Linter es ws ∅) = Ok tt self' /\
    0 <= n /\
    (forall i : Z, is_Some (line_map self' !! i) <-> 0 <= i < n) /\
    (forall i a b : Z,
        line_map self' !! i = Some a ->
        line_map self' !! (i + 1) = Some b ->
        a < b).
Proof.
  eexists. exists (Z.of_nat (List.length (spec_line_index content))).
  split; [apply build_line_map_spec|]. simpl.
  split; [lia|]. split.
  - intros i. rewrite build_line_map_lookup. unfold recorded.
    destruct (decide (0 <= i)) as [Hi|Hi].
    + rewrite lookup_lt_is_Some. lia.
    + split; [intros [x Hx]; discriminate | lia].
  - intros i a b. rewrite !build_line_map_lookup. unfold recorded.
    destruct (decide (0 <= i)) as [Hi|Hi]; [|discriminate].
    destruct (decide (0 <= i + 1)) as [Hi'|Hi']; [|lia].
    replace (Z.to_nat (i + 1)) with (S (Z.to_nat i)) by lia.
    apply brace_line_numbers_adjacent.
Qed.

End LineIndex.

(** ** Field checks and tag rules *)

Module Rules.

Ltac run_monad :=
  repeat (progress (unfold bind, ret, raise, when, and_then, add_error,
                      add_warning, py_strip, py_lower, py_len, py_split, dict_item;
                    cbv beta iota zeta; cbn [negb])).

Lemma dict_has_Some (k : string) (d : list (string * json)) (v : json) :
  dict_lookup k d = Some v -> dict_has k d = true.
Proof.
  induction d as [|[k' v'] r IH]; simpl; [discriminate|].
  destruct (String.eqb k k'); [reflexivity|]. exact IH.
Qed.

Lemma dict_has_None (k : string) (d : list (string * json)) :
  dict_lookup k d = None -> dict_has k d = false.
Proof.
  induction d as [|[k' v'] r IH]; simpl; [reflexivity|].
  destruct (String.eqb k k'); [discriminate|]. exact IH.
Qed.

Lemma get_line_info_eq (i : Z) (self : linter) :
  _get_line_info i self = Ok (line_info_of self i) self.
Proof. reflexivity. Qed.

Lemma space_not_upper (c : ascii) :
  PyStr.is_space c = true -> PyStr.lower_char c = c.
Proof.
  destruct c as [[] [] [] [] [] [] [] []]; vm_compute; intros H;
    first [reflexivity | discriminate H].
Qed.

Lemma rstrip_nonspace (c : ascii) (r : string) :
  PyStr.is_space c = false -> PyStr.rstrip (String c r) <> "".
Proof.
  intros Hc. simpl. destruct (PyStr.rstrip r); [rewrite Hc|]; discriminate.
Qed.

Lemma strip_nonspace (c : ascii) (r : string) :
  PyStr.is_space c = false -> PyStr.strip (String c r) <> "".
Proof.
  intros Hc. unfold PyStr.strip. simpl PyStr.lstrip. rewrite Hc.
  apply rstrip_nonspace. exact Hc.
Qed.

Lemma mem_In (x : string) (l : list string) :
  PyStr.mem x l = true <-> In x l.
Proof.
  unfold PyStr.mem. rewrite existsb_exists. split.
  - intros [y [Hy He]]. apply String.eqb_eq in He. subst. exact Hy.
  - intros H. exists x. split; [exact H | apply String.eqb_refl].
Qed.

Lemma environment_not_blank (v : string) :
  In (PyStr.lower v) environments -> PyStr.strip v <> "".
Proof.
  destruct v as [|c r]; simpl.
  - intros H. repeat destruct H as [H|H]; try discriminate H. destruct H.
  - intros H. apply strip_nonspace.
    destruct (PyStr.is_space c) eqn:Hs; [|reflexivity].
    rewrite (space_not_upper c Hs) in H.
    repeat destruct H as [H|H]; try (injection H as <- _; discriminate Hs).
    destruct H.
Qed.

(** C10. For an item whose "tagKey" is "Environment" and whose "value" is
    absent or the empty string, the Environment validator records nothing:
    the rule dispatch returns with the instance as it was, and all the item
    adds is the "Missing 'value'" error (value absent) or the "Empty 'value'"
    warning (value empty). *)
Theorem C10_environment_skips_empty (item : list (string * json)) (index : Z)
    (line_info : string) (self : linter) :
  dict_lookup "tagKey" item = Some (JStr "Environment") ->
  dict_lookup "value" item = None \/ dict_lookup "value" item = Some (JStr "") ->
  _validate_environment (dict_get "value" (JStr "") item) line_info self = Ok tt self /\
  _check_specific_tag_values item index line_info self = Ok tt self /\
  check_item index item self =
  Ok tt (Linter
           (errors self ++
            match dict_lookup "value" item with
            | None => ["Missing 'value' for 'Environment'" +:+ line_info_of self index]
            | Some _ => []
            end)
           (warnings self ++
            match dict_lookup "value" item with
            | None => []
            | Some _ => ["Empty 'value' for 'Environment'" +:+ line_info_of self index]
            end)
           (line_map self)).
Proof.
  intros Hk Hv.
  assert (dict_get "value" (JStr "") item = JStr "") as Hval.
  { unfold dict_get. destruct Hv as [-> | ->]; reflexivity. }
  assert (forall li s, _validate_environment (JStr "") li s = Ok tt s) as Hrun.
  { reflexivity. }
  assert (forall li s, _check_specific_tag_values item index li s = Ok tt s) as Hd.
  { intros li s. unfold _check_specific_tag_values. rewrite Hval.
    unfold dict_get. rewrite Hk. apply Hrun. }
  split; [rewrite Hval; apply Hrun|]. split; [apply Hd|].
  unfold check_item. unfold bind at 1. rewrite get_line_info_eq.
  rewrite (dict_has_Some _ _ _ Hk). unfold dict_item, dict_get. rewrite Hk.
  destruct self as [es ws lm]. destruct Hv as [Hv|Hv]; rewrite Hv.
  - rewrite (dict_has_None _ _ Hv). run_monad.
    change (PyStr.strip "Environment" =? "")%string with false. run_monad.
    rewrite Hd. simpl. rewrite app_nil_r. reflexivity.
  - rewrite (dict_has_Some _ _ _ Hv). run_monad.
    change (PyStr.strip "Environment" =? "")%string with false.
    change (PyStr.strip "" =? "")%string with true. run_monad.
    rewrite Hd. simpl. rewrite app_nil_r. reflexivity.
Qed.

Lemma C10_environment_skips_empty_witness :
  _validate_environment (dict_get "value" (JStr "") [("tagKey", JStr "Environment")])
    " (line 1)" init = Ok tt init /\
  _check_specific_tag_values [("tagKey", JStr "Environment")] 0 " (line 1)" init
  = Ok tt init /\
  check_item 0 [("tagKey", JStr "Environment")] init =
  Ok tt (Linter ([] ++ ["Missing 'value' for 'Environment'" +:+ line_info_of init 0])
                ([] ++ []) ∅).
Proof.
  apply (C10_environment_skips_empty [("tagKey", JStr "Environment")] 0 " (line 1)" init).
  - reflexivity.
  - left. reflexivity.
Defined.

Lemma truthy_str (v : string) : v <> "" -> truthy (JStr v) = true.
Proof.
  intros H. simpl. destruct (String.eqb_spec v ""); [contradiction | reflexivity].
Qed.

Lemma check_item_environment (i : Z) (item : list (string * json)) (v : string)
    (self : linter) :
  dict_lookup "tagKey" item = Some (JStr "Environment") ->
  dict_lookup "value" item = Some (JStr v) ->
  v <> "" ->
  check_item i item self =
  Ok tt (Linter (errors self)
           (warnings self
            ++ (if String.eqb (PyStr.strip v) ""
                then ["Empty 'value' for 'Environment'" +:+ line_info_of self i]
                else [])
            ++ (if PyStr.mem (PyStr.lower v) environments
                then []
                else [environment_warning v (line_info_of self i)]))
           (line_map self)).
Proof.
  intros Hk Hv Hne.
  unfold check_item. unfold bind at 1. rewrite get_line_info_eq.
  set (li := line_info_of self i).
  rewrite (dict_has_Some _ _ _ Hk), (dict_has_Some _ _ _ Hv).
  unfold _check_specific_tag_values, dict_item, dict_get. rewrite Hk, Hv.
  change (eq_str (JStr "Environment") "Data Classification") with false.
  change (eq_str (JStr "Environment") "Business Groups") with false.
  change (eq_str (JStr "Environment") "Owning Business group") with false.
  change (eq_str (JStr "Environment") "Environment") with true.
  cbv iota. unfold _validate_environment.
  rewrite (truthy_str v Hne).
  unfold environment_warning. fold environments.
  change (PyStr.join ", " environments)
    with "dev, development, staging, stage, prod, production".
  run_monad.
  change (PyStr.strip "Environment" =? "")%string with false.
  destruct (PyStr.strip v =? "")%string; destruct (PyStr.mem _ _);
    run_monad; simpl; rewrite <- ?app_assoc, ?app_nil_r;
    destruct self; reflexivity.
Qed.

(** C5. For an item whose "tagKey" is "Environment" and whose "value" is a
    non-empty string, the item adds a warning exactly when the lowercased
    value is not one of dev, development, staging, stage, prod, production,
    and then the Environment warning is among those added; the one-line file
    with value "Prod" gives no error and no warning, and the one with value
    "qa" gives no error and exactly one warning, which names 'qa' and lists
    the allowed set. *)
Theorem C5_environment_rule :
  (forall (i : Z) (item : list (string * json)) (v : string) (self : linter),
      dict_lookup "tagKey" item = Some (JStr "Environment") ->
      dict_lookup "value" item = Some (JStr v) ->
      v <> "" ->
      exists new : list string,
        check_item i item self =
        Ok tt (Linter (errors self) (warnings self ++ new) (line_map self)) /\
        (new <> [] <-> ~ In (PyStr.lower v) environments) /\
        (In (environment_warning v (line_info_of self i)) new <->
         ~ In (PyStr.lower v) environments)) /\
  (forall (rt : runtime) (filename : string) (self : linter),
      read_file rt filename = inr (tag_text "Environment" "Prod") ->
      json_loads rt (tag_text "Environment" "Prod")
      = inr (tag_data "Environment" "Prod") ->
      lint_file rt filename self =
      Run [PNoIssues] (Ok true (Linter [] [] {[ 0 := 1 ]}))) /\
  (forall (rt : runtime) (filename : string) (self : linter),
      read_file rt filename = inr (tag_text "Environment" "qa") ->
      json_loads rt (tag_text "Environment" "qa")
      = inr (tag_data "Environment" "qa") ->
      lint_file rt filename self =
      let w := "Invalid Environment 'qa' (should be one of: dev, development, staging, stage, prod, production) (line 1)" in
      Run [PWarningCount 1; PBullet w] (Ok true (Linter [] [w] {[ 0 := 1 ]}))).
Proof.
  split; [|split].
  - intros i item v self Hk Hv Hne.
    eexists. split; [exact (check_item_environment i item v self Hk Hv Hne)|].
    destruct (PyStr.mem (PyStr.lower v) environments) eqn:Hm.
    + apply mem_In in Hm. pose proof (environment_not_blank v Hm) as Hb.
      destruct (String.eqb_spec (PyStr.strip v) ""); [contradiction|].
      simpl. split; split; intros H.
      * exfalso. apply H. reflexivity.
      * contradiction.
      * destruct H.
      * contradiction.
    + assert (~ In (PyStr.lower v) environments) as Hn.
      { intros H. apply mem_In in H. congruence. }
      split; split; intros H; try exact Hn.
      * destruct (PyStr.strip v =? "")%string; discriminate.
      * apply in_or_app. right. left. reflexivity.
  - intros rt filename self Hr Hl. unfold lint_file. rewrite Hr, Hl.
    vm_compute. reflexivity.
  - intros rt filename self Hr Hl. unfold lint_file. rewrite Hr, Hl.
    vm_compute. reflexivity.
Qed.

Lemma C5_environment_rule_witness :
  (exists new : list string,
      check_item 0 [("tagKey", JStr "Environment"); ("value", JStr "qa")] init =
      Ok tt (Linter [] ([] ++ new) ∅) /\
      (new <> [] <-> ~ In (PyStr.lower "qa") environments) /\
      (In (environment_warning "qa" (line_info_of init 0)) new <->
       ~ In (PyStr.lower "qa") environments)) /\
  lint_file (one_file_runtime (tag_text "Environment" "Prod")
                              (tag_data "Environment" "Prod")) "tags.json" init =
  Run [PNoIssues] (Ok true (Linter [] [] {[ 0 := 1 ]})).
Proof.
  split.
  - apply (proj1 C5_environment_rule 0
             [("tagKey", JStr "Environment"); ("value", JStr "qa")] "qa" init).
    + reflexivity.
    + reflexivity.
    + discriminate.
  - apply (proj1 (proj2 C5_environment_rule)); reflexivity.
Defined.

Lemma check_item_business_groups (i : Z) (item : list (string * json)) (v : string)
    (self : linter) :
  dict_lookup "tagKey" item = Some (JStr "Business Groups") ->
  dict_lookup "value" item = Some (JStr v) ->
  v <> "" ->
  check_item i item self =
  Ok tt (Linter (errors self)
           (warnings self
            ++ (if String.eqb (PyStr.strip v) ""
                then ["Empty 'value' for 'Business Groups'" +:+ line_info_of self i]
                else [])
            ++ (if Z.of_nat (String.length v) <? 2
                then [too_short_warning v (line_info_of self i)]
                else [])
            ++ (if has_valid_prefix v
                then []
                else [prefix_warning v (line_info_of self i)]))
           (line_map self)).
Proof.
  intros Hk Hv Hne.
  unfold check_item. unfold bind at 1. rewrite get_line_info_eq.
  set (li := line_info_of self i).
  rewrite (dict_has_Some _ _ _ Hk), (dict_has_Some _ _ _ Hv).
  unfold _check_specific_tag_values, dict_item, dict_get. rewrite Hk, Hv.
  change (eq_str (JStr "Business Groups") "Data Classification") with false.
  change (eq_str (JStr "Business Groups") "Business Groups") with true.
  cbv iota. unfold _validate_business_groups.
  rewrite (truthy_str v Hne).
  unfold too_short_warning, prefix_warning, has_valid_prefix, any_m.
  change (PyStr.join ", " ["gip"; "eng"; "ops"; "fin"]) with "gip, eng, ops, fin".
  run_monad.
  change (PyStr.strip "Business Groups" =? "")%string with false.
  unfold existsb.
  destruct (PyStr.strip v =? "")%string;
    destruct (Z.of_nat (String.length v) <? 2);
    destruct (PyStr.startswith (PyStr.lower v) "gip");
    destruct (PyStr.startswith (PyStr.lower v) "eng");
    destruct (PyStr.startswith (PyStr.lower v) "ops");
    destruct (PyStr.startswith (PyStr.lower v) "fin");
    run_monad; simpl; rewrite <- ?app_assoc, ?app_nil_r;
    destruct self; reflexivity.
Qed.

(** C2 as stated fails: the value " a" has trimmed length 1, and no "too
    short" warning is added for it. *)
Lemma C2_trimmed_length_counterexample :
  check_item 0 [("tagKey", JStr "Business Groups"); ("value", JStr " a")] init =
  Ok tt (Linter [] [prefix_warning " a" ""] ∅) /\
  ~ (In (too_short_warning " a" "") [prefix_warning " a" ""] <->
     (String.length (PyStr.strip " a") < 2)%nat).
Proof.
  split; [vm_compute; reflexivity|].
  intros [_ H]. assert (String.length (PyStr.strip " a") < 2)%nat as Hlt.
  { vm_compute. lia. }
  apply H in Hlt. destruct Hlt as [Heq|[]]. discriminate Heq.
Qed.

(** C2, amended. For an item whose "tagKey" is "Business Groups" and whose
    "value" is a non-empty string, the "too short" warning is among the
    warnings the item adds if and only if the length of the value as it is,
    surrounding whitespace included, is less than 2 characters. *)
Theorem C2_too_short_iff_raw_length (i : Z) (item : list (string * json))
    (v : string) (self : linter) :
  dict_lookup "tagKey" item = Some (JStr "Business Groups") ->
  dict_lookup "value" item = Some (JStr v) ->
  v <> "" ->
  exists new : list string,
    check_item i item self =
    Ok tt (Linter (errors self) (warnings self ++ new) (line_map self)) /\
    (In (too_short_warning v (line_info_of self i)) new <->
     (String.length v < 2)%nat).
Proof.
  intros Hk Hv Hne.
  eexists. split; [exact (check_item_business_groups i item v self Hk Hv Hne)|].
  set (li := line_info_of self i).
  rewrite !in_app_iff.
  destruct (Z.ltb_spec (Z.of_nat (String.length v)) 2) as [Hlt|Hge].
  - split; [intros _; lia|]. intros _. right. left. left. reflexivity.
  - split; [|intros H; lia].
    intros [H|[H|H]].
    + destruct (PyStr.strip v =? "")%string; [|destruct H].
      destruct H as [H|[]]. discriminate H.
    + destruct H.
    + destruct (has_valid_prefix v); [destruct H|].
      destruct H as [H|[]]. discriminate H.
Qed.

Lemma C2_too_short_iff_raw_length_witness :
  exists new : list string,
    check_item 0 [("tagKey", JStr "Business Groups"); ("value", JStr "g")] init =
    Ok tt (Linter [] ([] ++ new) ∅) /\
    (In (too_short_warning "g" (line_info_of init 0)) new <->
     (String.length "g" < 2)%nat).
Proof.
  apply (C2_too_short_iff_raw_length 0
           [("tagKey", JStr "Business Groups"); ("value", JStr "g")] "g" init).
  - reflexivity.
  - reflexivity.
  - discriminate.
Defined.


(** The rules never raise on a string value. *)
Lemma validate_data_classification_str (v line_info : string) (self : linter) :
  exists self', _validate_data_classification (JStr v) line_info self = Ok tt self'.
Proof.
  unfold _validate_data_classification. run_monad.
  destruct (_ && _); eauto.
Qed.

Lemma validate_business_groups_str (v line_info : string) (self : linter) :
  exists self', _validate_business_groups (JStr v) line_info self = Ok tt self'.
Proof.
  unfold _validate_business_groups, any_m. run_monad.
  repeat (case_match; run_monad; simplify_eq); eauto.
Qed.

Lemma validate_owning_business_group_str (v line_info : string) (self : linter) :
  exists self', _validate_owning_business_group (JStr v) line_info self = Ok tt self'.
Proof.
  unfold _validate_owning_business_group. run_monad.
  repeat (case_match; run_monad; simplify_eq); eauto.
Qed.

Lemma validate_environment_str (v line_info : string) (self : linter) :
  exists self', _validate_environment (JStr v) line_info self = Ok tt self'.
Proof.
  unfold _validate_environment. run_monad.
  repeat (case_match; run_monad; simplify_eq); eauto.
Qed.

Lemma check_specific_tag_values_str (item : list (string * json)) (index : Z)
    (line_info k v : string) (self : linter) :
  dict_get "tagKey" (JStr "") item = JStr k ->
  dict_get "value" (JStr "") item = JStr v ->
  exists self', _check_specific_tag_values item index line_info self = Ok tt self'.
Proof.
  intros Hk Hv. unfold _check_specific_tag_values. rewrite Hk, Hv.
  repeat case_match;
    eauto using validate_data_classification_str, validate_business_groups_str,
      validate_owning_business_group_str, validate_environment_str.
Qed.

Lemma check_item_nonstring_tagKey (i : Z) (item : list (string * json)) (v : json)
    (self : linter) :
  dict_lookup "tagKey" item = Some v -> is_str v = false ->
  exists self', check_item i item self = Raise (AttributeError (type_name v) "strip") self'.
Proof.
  intros Hk Hs. unfold check_item. unfold bind at 1. rewrite get_line_info_eq.
  rewrite (dict_has_Some _ _ _ Hk). unfold dict_item. rewrite Hk.
  destruct (dict_has "value" item); destruct v; try discriminate Hs;
    run_monad; eauto.
Qed.

Lemma check_item_nonstring_value (i : Z) (item : list (string * json)) (v : json)
    (self : linter) :
  (forall w, dict_lookup "tagKey" item = Some w -> is_str w = true) ->
  dict_lookup "value" item = Some v -> is_str v = false ->
  exists self', check_item i item self = Raise (AttributeError (type_name v) "strip") self'.
Proof.
  intros Hk Hv Hs. unfold check_item. unfold bind at 1. rewrite get_line_info_eq.
  rewrite (dict_has_Some _ _ _ Hv). unfold dict_item. rewrite Hv.
  destruct (dict_lookup "tagKey" item) as [w|] eqn:Hw.
  - rewrite (dict_has_Some _ _ _ Hw). specialize (Hk w eq_refl).
    destruct w; try discriminate Hk.
    destruct v; try discriminate Hs; run_monad;
      destruct (PyStr.strip s =? "")%string; run_monad; eauto.
  - rewrite (dict_has_None _ _ Hw).
    destruct v; try discriminate Hs; run_monad; eauto.
Qed.

Lemma check_item_strings (i : Z) (item : list (string * json)) (self : linter) :
  (forall w, dict_lookup "tagKey" item = Some w -> is_str w = true) ->
  (forall w, dict_lookup "value" item = Some w -> is_str w = true) ->
  exists self', check_item i item self = Ok tt self'.
Proof.
  intros Hk Hv.
  assert (exists k, dict_get "tagKey" (JStr "") item = JStr k) as [k Hgk].
  { unfold dict_get. destruct (dict_lookup "tagKey" item) as [w|]; [|eauto].
    specialize (Hk w eq_refl). destruct w; try discriminate Hk. eauto. }
  assert (exists v, dict_get "value" (JStr "") item = JStr v) as [v Hgv].
  { unfold dict_get. destruct (dict_lookup "value" item) as [w|]; [|eauto].
    specialize (Hv w eq_refl). destruct w; try discriminate Hv. eauto. }
  unfold check_item. unfold bind at 1. rewrite get_line_info_eq.
  unfold dict_item.
  destruct (dict_lookup "tagKey" item) as [wk|] eqn:Hwk;
    [rewrite (dict_has_Some _ _ _ Hwk); specialize (Hk wk eq_refl);
     destruct wk; try discriminate Hk
    |rewrite (dict_has_None _ _ Hwk)];
  (destruct (dict_lookup "value" item) as [wv|] eqn:Hwv;
    [rewrite (dict_has_Some _ _ _ Hwv); specialize (Hv wv eq_refl);
     destruct wv; try discriminate Hv
    |rewrite (dict_has_None _ _ Hwv)]);
  run_monad;
  repeat (case_match; run_monad; simplify_eq);
  eapply check_specific_tag_values_str; eassumption.
Qed.

Lemma check_item_outcome (i : Z) (item : list (string * json)) (self : linter) :
  (exists self', check_item i item self = Ok tt self') \/
  (exists e self', check_item i item self = Raise e self' /\ strip_error e).
Proof.
  destruct (dict_lookup "tagKey" item) as [wk|] eqn:Hwk.
  - destruct (is_str wk) eqn:Hsk.
    + destruct (dict_lookup "value" item) as [wv|] eqn:Hwv.
      * destruct (is_str wv) eqn:Hsv.
        -- left. apply check_item_strings; intros w Hw; congruence.
        -- right. destruct (check_item_nonstring_value i item wv self) as [s Hs];
             [intros w Hw; congruence | assumption | assumption |].
           exists (AttributeError (type_name wv) "strip"), s.
           split; [exact Hs | eexists; reflexivity].
      * left. apply check_item_strings; intros w Hw; congruence.
    + right. destruct (check_item_nonstring_tagKey i item wk self Hwk Hsk) as [s Hs].
      exists (AttributeError (type_name wk) "strip"), s.
      split; [exact Hs | eexists; reflexivity].
  - destruct (dict_lookup "value" item) as [wv|] eqn:Hwv.
    + destruct (is_str wv) eqn:Hsv.
      * left. apply check_item_strings; intros w Hw; congruence.
      * right. destruct (check_item_nonstring_value i item wv self) as [s Hs];
          [intros w Hw; congruence | assumption | assumption |].
        exists (AttributeError (type_name wv) "strip"), s.
        split; [exact Hs | eexists; reflexivity].
    + left. apply check_item_strings; intros w Hw; congruence.
Qed.

Lemma check_item_nonstring (i : Z) (item : list (string * json)) (self : linter) :
  nonstring_field item ->
  exists e self', check_item i item self = Raise e self' /\ strip_error e.
Proof.
  intros [v [Hv Hs]].
  destruct (check_item_outcome i item self) as [[s Hok]|Hr]; [|exact Hr].
  exfalso. destruct Hv as [Hv|Hv].
  - destruct (check_item_nonstring_tagKey i item v self Hv Hs) as [s' H']. congruence.
  - destruct (dict_lookup "tagKey" item) as [wk|] eqn:Hwk.
    + destruct (is_str wk) eqn:Hsk.
      * destruct (check_item_nonstring_value i item v self) as [s' H'];
          [intros w Hw; congruence | assumption | assumption | congruence].
      * destruct (check_item_nonstring_tagKey i item wk self Hwk Hsk) as [s' H'].
        congruence.
    + destruct (check_item_nonstring_value i item v self) as [s' H'];
        [intros w Hw; congruence | assumption | assumption | congruence].
Qed.

End Rules.

(** ** Whole runs *)

Module LintFile.

Import Rules.

Lemma for_enumerate_ok {A} (body : Z -> A -> M unit) (l : list A) :
  (forall j y s, exists s', body j y s = Ok tt s') ->
  forall start s, exists s', for_enumerate start l body s = Ok tt s'.
Proof.
  intros Hb. induction l as [|x r IH]; intros start s; simpl.
  - eexists. reflexivity.
  - unfold bind. destruct (Hb start x s) as [s1 ->]. apply IH.
Qed.

Lemma for_enumerate_raises {A} (P : exn -> Prop) (body : Z -> A -> M unit)
    (l : list A) :
  (forall j y s, (exists s', body j y s = Ok tt s') \/
                 (exists e s', body j y s = Raise e s' /\ P e)) ->
  forall (k : nat) (x : A) (start : Z) (s : linter),
    l !! k = Some x ->
    (forall s0, exists e s', body (start + Z.of_nat k) x s0 = Raise e s' /\ P e) ->
    exists e s', for_enumerate start l body s = Raise e s' /\ P e.
Proof.
  intros Hb. induction l as [|y r IH]; intros k x start s Hk Hx.
  - discriminate Hk.
  - simpl. unfold bind. destruct k as [|k]; simpl in Hk.
    + injection Hk as ->. replace (start + Z.of_nat 0) with start in Hx by lia.
      destruct (Hx s) as [e [s' [-> HP]]]. eauto.
    + destruct (Hb start y s) as [[s1 ->]|[e [s1 [-> HP]]]]; [|eauto].
      apply (IH k x (start + 1) s1 Hk).
      intros s0. replace (start + 1 + Z.of_nat k) with (start + Z.of_nat (S k)) by lia.
      apply Hx.
Qed.

Lemma check_structure_ok (data : json) (self : linter) :
  exists self', _check_structure data self = Ok tt self'.
Proof.
  destruct data; try (eexists; reflexivity).
  unfold _check_structure, bind.
  assert (exists s1, when (Z.of_nat (List.length l) =? 0)
                       (add_warning "Array is empty") self = Ok tt s1) as [s1 ->].
  { destruct (_ =? _); eexists; reflexivity. }
  apply for_enumerate_ok. intros j y s.
  destruct (is_dict y); eexists; reflexivity.
Qed.

Lemma check_content_raises (items : list json) (k : nat) (item : list (string * json))
    (self : linter) :
  items !! k = Some (JObj item) -> nonstring_field item ->
  exists e self', _check_content (JArr items) self = Raise e self' /\ strip_error e.
Proof.
  intros Hk Hbad. unfold _check_content.
  apply (for_enumerate_raises strip_error _ items) with (k := k) (x := JObj item).
  - intros j y s. destruct y; try (left; eexists; reflexivity).
    apply check_item_outcome.
  - exact Hk.
  - intros s0. apply check_item_nonstring. exact Hbad.
Qed.

(** C1, as the code behaves. When some element of the decoded array is an
    object in which "tagKey" or "value" is bound to something that is not a
    string, the emptiness check raises AttributeError (no attribute 'strip'),
    the exception escapes [lint_file], and nothing is printed: the run gives
    neither a report nor a verdict. *)
Theorem C1_nonstring_field_raises (rt : runtime) (filename content : string)
    (self : linter) (items : list json) (k : nat) (item : list (string * json)) :
  read_file rt filename = inr content ->
  json_loads rt content = inr (JArr items) ->
  items !! k = Some (JObj item) ->
  nonstring_field item ->
  exists (t : string) (self' : linter),
    lint_file rt filename self = Run [] (Raise (AttributeError t "strip") self').
Proof.
  intros Hr Hl Hk Hbad. unfold lint_file. rewrite Hr, Hl.
  unfold bind at 1. rewrite LineIndex.build_line_map_spec.
  unfold bind at 1.
  match goal with
  | |- context [_check_structure ?d ?s] =>
      destruct (check_structure_ok d s) as [s1 ->]
  end.
  destruct (check_content_raises items k item s1 Hk Hbad) as [e [s2 [-> [t ->]]]].
  eauto.
Qed.

Lemma C1_nonstring_field_raises_witness :
  exists (t : string) (self' : linter),
    lint_file (one_file_runtime numeric_key_text numeric_key_data) "tags.json" init
    = Run [] (Raise (AttributeError t "strip") self').
Proof.
  apply (C1_nonstring_field_raises _ "tags.json" numeric_key_text init
           [JObj [("tagKey", JInt 1); ("value", JStr "x")]] 0
           [("tagKey", JInt 1); ("value", JStr "x")]).
  - reflexivity.
  - reflexivity.
  - reflexivity.
  - exists (JInt 1). split; [left; reflexivity | reflexivity].
Defined.

Example numeric_key_run :
  lint_file (one_file_runtime numeric_key_text numeric_key_data) "tags.json" init
  = Run [] (Raise (AttributeError "int" "strip") (Linter [] [] {[ 0 := 1 ]})).
Proof. vm_compute. reflexivity. Qed.

(** C3. When the decoded top-level value is not an array, the run records
    exactly the error "JSON should be an array" and no warning, the field and
    rule checks do nothing, and [lint_file] returns False. *)
Theorem C3_non_array_document (rt : runtime) (filename content : string)
    (self : linter) (data : json) :
  read_file rt filename = inr content ->
  json_loads rt content = inr data ->
  is_list data = false ->
  (forall s, _check_content data s = Ok tt s) /\
  exists lm : gmap Z Z,
    lint_file rt filename self =
    Run [PErrorCount 1; PBullet "JSON should be an array"]
        (Ok false (Linter ["JSON should be an array"] [] lm)).
Proof.
  intros Hr Hl Hd. split.
  - intros s. destruct data; try reflexivity. discriminate Hd.
  - unfold lint_file. rewrite Hr, Hl.
    unfold bind at 1. rewrite LineIndex.build_line_map_spec.
    eexists. destruct data; try discriminate Hd; reflexivity.
Qed.

Lemma C3_non_array_document_witness :
  exists lm : gmap Z Z,
    lint_file (one_file_runtime ("{" +:+ quoted "a" +:+ ":1}") (JObj [("a", JInt 1)]))
      "tags.json" init =
    Run [PErrorCount 1; PBullet "JSON should be an array"]
        (Ok false (Linter ["JSON should be an array"] [] lm)).
Proof.
  apply (C3_non_array_document _ "tags.json" ("{" +:+ quoted "a" +:+ ":1}") init
           (JObj [("a", JInt 1)])); reflexivity.
Defined.

(** C4. When the text of the file does not decode, [lint_file] prints exactly
    one line, the decode message with the decoder's reason and line number,
    and returns False; no check has run: the error list, the warning list
    and the line map are empty. *)
Theorem C4_decode_failure_aborts (rt : runtime) (filename content : string)
    (self : linter) (e : JSONDecodeError) :
  read_file rt filename = inr content ->
  json_loads rt content = inl e ->
  lint_file rt filename self =
  Run [PInvalidJSON (msg e) (lineno e)] (Ok false (Linter [] [] ∅)).
Proof.
  intros Hr Hl. unfold lint_file. rewrite Hr, Hl. reflexivity.
Qed.

Lemma C4_decode_failure_aborts_witness :
  lint_file (Runtime (fun _ => inr "[1,]")
                     (fun _ => inl (DecodeError "Expecting value" 1)))
    "tags.json" (Linter ["old error"] ["old warning"] {[ 0 := 7 ]}) =
  Run [PInvalidJSON "Expecting value" 1] (Ok false (Linter [] [] ∅)).
Proof.
  apply (C4_decode_failure_aborts _ "tags.json" "[1,]" _
           (DecodeError "Expecting value" 1)); reflexivity.
Defined.

(** C6. A call of [lint_file] does not depend on the lists and line map the
    instance held before it: they are cleared first. So a second call on the
    same input, on the instance the first call left, gives the same output,
    the same error and warning lists and the same verdict. *)
Theorem C6_lint_file_idempotent (rt : runtime) (filename : string) (self : linter) :
  (forall other : linter, lint_file rt filename other = lint_file rt filename self) /\
  lint_file rt filename (instance_after (lint_file rt filename self))
  = lint_file rt filename self.
Proof.
  assert (forall a b : linter, lint_file rt filename a = lint_file rt filename b) as H.
  { intros a b. unfold lint_file. cbv zeta. simpl errors. simpl warnings.
    simpl line_map. reflexivity. }
  split; [intros other|]; apply H.
Qed.

(** C7 as stated fails on the message: the error recorded for the one-line
    file carries the line of the item. *)
Lemma C7_message_counterexample :
  lint_file (one_file_runtime missing_key_text missing_key_data) "tags.json" init =
  Run [PErrorCount 1; PBullet "Missing 'tagKey' at position 0 (line 1)"]
      (Ok false (Linter ["Missing 'tagKey' at position 0 (line 1)"] [] {[ 0 := 1 ]})) /\
  ["Missing 'tagKey' at position 0 (line 1)"] <> ["Missing 'tagKey' at position 0"].
Proof.
  split; [vm_compute; reflexivity | discriminate].
Qed.

(** C7, amended. For the input [{"value":"x"}], exactly one error is
    recorded, "Missing 'tagKey' at position 0" followed by the line-info
    suffix of index 0, which is " (line 1)" for the one-line file; no
    "Missing 'value'" error and no warning is recorded, and the "Item 0"
    label raises nothing: the run returns False. *)
Theorem C7_missing_tagKey (rt : runtime) (filename : string) (self : linter) :
  read_file rt filename = inr missing_key_text ->
  json_loads rt missing_key_text = inr missing_key_data ->
  (forall s : linter,
      check_item 0 [("value", JStr "x")] s =
      Ok tt (Linter (errors s ++ ["Missing 'tagKey' at position 0" +:+ line_info_of s 0])
                    (warnings s) (line_map s))) /\
  lint_file rt filename self =
  Run [PErrorCount 1; PBullet "Missing 'tagKey' at position 0 (line 1)"]
      (Ok false (Linter ["Missing 'tagKey' at position 0 (line 1)"] [] {[ 0 := 1 ]})).
Proof.
  intros Hr Hl. split.
  - intros s. unfold check_item. unfold bind at 1. rewrite get_line_info_eq.
    destruct s as [es ws lm]. reflexivity.
  - unfold lint_file. rewrite Hr, Hl. vm_compute. reflexivity.
Qed.

Lemma C7_missing_tagKey_witness :
  lint_file (one_file_runtime missing_key_text missing_key_data) "tags.json" init =
  Run [PErrorCount 1; PBullet "Missing 'tagKey' at position 0 (line 1)"]
      (Ok false (Linter ["Missing 'tagKey' at position 0 (line 1)"] [] {[ 0 := 1 ]})).
Proof.
  apply (C7_missing_tagKey (one_file_runtime missing_key_text missing_key_data)
           "tags.json" init); reflexivity.
Defined.

End LintFile.


(** ** What the checks may change *)

Module Frame.

Import Rules.

Lemma warns_only_refl (s : linter) : warns_only s s.
Proof.
  split; [reflexivity|]. split; [reflexivity|].
  exists []. rewrite app_nil_r. reflexivity.
Qed.

Lemma warns_only_trans (a b c : linter) :
  warns_only a b -> warns_only b c -> warns_only a c.
Proof.
  intros [Hl1 [He1 [w1 Hw1]]] [Hl2 [He2 [w2 Hw2]]].
  split; [congruence|]. split; [congruence|].
  exists (w1 ++ w2)%list. rewrite Hw2, Hw1, app_assoc. reflexivity.
Qed.

Lemma appends_only_refl (s : linter) : appends_only s s.
Proof.
  split; [reflexivity|].
  split; exists []; rewrite app_nil_r; reflexivity.
Qed.

Lemma appends_only_trans (a b c : linter) :
  appends_only a b -> appends_only b c -> appends_only a c.
Proof.
  intros [Hl1 [[e1 He1] [w1 Hw1]]] [Hl2 [[e2 He2] [w2 Hw2]]].
  split; [congruence|]. split.
  - exists (e1 ++ e2)%list. rewrite He2, He1, app_assoc. reflexivity.
  - exists (w1 ++ w2)%list. rewrite Hw2, Hw1, app_assoc. reflexivity.
Qed.

Lemma warns_only_appends_only (a b : linter) : warns_only a b -> appends_only a b.
Proof.
  intros [Hl [He Hw]]. split; [exact Hl|]. split; [|exact Hw].
  exists []. rewrite app_nil_r. exact He.
Qed.

Lemma warns_appends {A} (m : M A) : warns m -> appends m.
Proof. intros H self. apply warns_only_appends_only, H. Qed.

Lemma warns_ret {A} (a : A) : warns (ret a).
Proof. intros self. apply warns_only_refl. Qed.

Lemma warns_raise {A} (e : exn) : warns (@raise A e).
Proof. intros self. apply warns_only_refl. Qed.

Lemma warns_bind {A B} (m : M A) (k : A -> M B) :
  warns m -> (forall a, warns (k a)) -> warns (bind m k).
Proof.
  intros Hm Hk self. unfold bind. specialize (Hm self).
  destruct (m self) as [a s1|e s1]; simpl in Hm.
  - apply (warns_only_trans _ s1); [exact Hm | apply Hk].
  - exact Hm.
Qed.

Lemma warns_add_warning (text : string) : warns (add_warning text).
Proof.
  intros self. split; [reflexivity|]. split; [reflexivity|].
  exists [text]. reflexivity.
Qed.

Lemma warns_when (b : bool) (body : M unit) : warns body -> warns (when b body).
Proof. intros H. destruct b; [exact H | apply warns_ret]. Qed.

Lemma warns_and_then (a : bool) (b : M bool) : warns b -> warns (and_then a b).
Proof. intros H. destruct a; [exact H | apply warns_ret]. Qed.

Lemma warns_if {A} (b : bool) (m1 m2 : M A) :
  warns m1 -> warns m2 -> warns (if b then m1 else m2).
Proof. intros H1 H2. destruct b; assumption. Qed.

Lemma warns_py_strip (v : json) : warns (py_strip v).
Proof. destruct v; first [apply warns_ret | apply warns_raise]. Qed.

Lemma warns_py_lower (v : json) : warns (py_lower v).
Proof. destruct v; first [apply warns_ret | apply warns_raise]. Qed.

Lemma warns_py_split (v : json) : warns (py_split v).
Proof. destruct v; first [apply warns_ret | apply warns_raise]. Qed.

Lemma warns_py_len (v : json) : warns (py_len v).
Proof. destruct v; first [apply warns_ret | apply warns_raise]. Qed.

Lemma warns_dict_item (k : string) (d : list (string * json)) : warns (dict_item k d).
Proof.
  unfold dict_item. destruct (dict_lookup k d); [apply warns_ret | apply warns_raise].
Qed.

Lemma warns_get_line_info (i : Z) : warns (_get_line_info i).
Proof. intros self. apply warns_only_refl. Qed.

Lemma warns_any_m {A} (f : A -> M bool) (l : list A) :
  (forall x, warns (f x)) -> warns (any_m f l).
Proof.
  intros Hf. induction l as [|x r IH]; simpl.
  - apply warns_ret.
  - apply warns_bind; [apply Hf|]. intros b. destruct b; [apply warns_ret | exact IH].
Qed.

Create HintDb frame.
#[local] Hint Resolve warns_ret warns_raise warns_bind warns_add_warning warns_when
  warns_and_then warns_if warns_py_strip warns_py_lower warns_py_split warns_py_len
  warns_dict_item warns_get_line_info warns_any_m : frame.

Lemma warns_validate_data_classification (value : json) (line_info : string) :
  warns (_validate_data_classification value line_info).
Proof. unfold _validate_data_classification. auto 10 with frame. Qed.

Lemma warns_validate_business_groups (value : json) (line_info : string) :
  warns (_validate_business_groups value line_info).
Proof. unfold _validate_business_groups. auto 12 with frame. Qed.

Lemma warns_validate_owning_business_group (value : json) (line_info : string) :
  warns (_validate_owning_business_group value line_info).
Proof. unfold _validate_owning_business_group. auto 12 with frame. Qed.

Lemma warns_validate_environment (value : json) (line_info : string) :
  warns (_validate_environment value line_info).
Proof. unfold _validate_environment. auto 10 with frame. Qed.

Lemma warns_check_specific_tag_values (item : list (string * json)) (index : Z)
    (line_info : string) :
  warns (_check_specific_tag_values item index line_info).
Proof.
  unfold _check_specific_tag_values. cbv zeta.
  repeat case_match;
    auto using warns_validate_data_classification, warns_validate_business_groups,
      warns_validate_owning_business_group, warns_validate_environment, warns_ret.
Qed.


(** X3. The tag rules only warn: whatever the item holds, and also when a
    rule raises, the dispatch leaves the error list and the line map as they
    were and only adds warnings at the end of the warning list. *)
Theorem tag_rules_only_warn (item : list (string * json)) (index : Z)
    (line_info : string) (self : linter) :
  let s' := final (_check_specific_tag_values item index line_info self) in
  errors s' = errors self /\
  line_map s' = line_map self /\
  exists w : list string, warnings s' = (warnings self ++ w)%list.
Proof.
  destruct (warns_check_specific_tag_values item index line_info self)
    as [Hl [He Hw]].
  cbv zeta. auto.
Qed.

Lemma line_info_of_ext (s1 s2 : linter) (i : Z) :
  line_map s1 = line_map s2 -> line_info_of s1 i = line_info_of s2 i.
Proof. intros H. unfold line_info_of, _get_line_info. rewrite H. reflexivity. Qed.

Lemma structure_errors_ext (s1 s2 : linter) (items : list json) :
  line_map s1 = line_map s2 ->
  forall start, structure_errors s1 start items = structure_errors s2 start items.
Proof.
  intros H. induction items as [|x r IH]; intros start; simpl; [reflexivity|].
  rewrite IH, (line_info_of_ext s1 s2 start H). reflexivity.
Qed.

Lemma missing_errors_ext (s1 s2 : linter) (i : Z) (d : list (string * json)) :
  line_map s1 = line_map s2 -> missing_errors s1 i d = missing_errors s2 i d.
Proof.
  intros H. unfold missing_errors. rewrite (line_info_of_ext s1 s2 i H). reflexivity.
Qed.

Lemma content_errors_ext (s1 s2 : linter) (items : list json) :
  line_map s1 = line_map s2 ->
  forall start, content_errors s1 start items = content_errors s2 start items.
Proof.
  intros H. induction items as [|x r IH]; intros start; simpl; [reflexivity|].
  rewrite IH. destruct x; try reflexivity.
  rewrite (missing_errors_ext s1 s2 start m H). reflexivity.
Qed.

Lemma final_bind_ok {A B} (m : M A) (k : A -> M B) (self s1 : linter) (a : A) :
  m self = Ok a s1 -> final (bind m k self) = final (k a s1).
Proof. intros H. unfold bind. rewrite H. reflexivity. Qed.

(** The field check of one object: its errors are the missing-key errors,
    whether it returns or raises. *)
Lemma check_item_errors (i : Z) (d : list (string * json)) (self : linter) :
  let s' := final (check_item i d self) in
  errors s' = (errors self ++ missing_errors self i d)%list /\
  line_map s' = line_map self /\
  exists w : list string, warnings s' = (warnings self ++ w)%list.
Proof.
  cbv zeta. unfold check_item.
  rewrite (final_bind_ok _ _ self self (line_info_of self i)) by reflexivity.
  set (li := line_info_of self i).
  unfold missing_errors. fold li.
  set (label := py_str (dict_get "tagKey" (JStr ("Item " +:+ pretty i)) d)).
  destruct self as [es ws lm].
  destruct (dict_has "tagKey" d); destruct (dict_has "value" d);
    match goal with
    | |- context [bind (when ?c1 ?m1) (fun _ => bind (when ?c2 ?m2) (fun _ => ?R))] =>
        assert (warns R) as HR
          by auto 20 using warns_check_specific_tag_values with frame;
        generalize dependent R; intros rest HR
    end;
    (erewrite final_bind_ok by reflexivity);
    (erewrite final_bind_ok by reflexivity);
    match goal with
    | |- context [final (_ ?s)] => destruct (HR s) as [Hl [He Hw]]
    end;
    simpl in Hl, He, Hw; simpl;
    (split; [rewrite He, <- ?app_assoc, ?app_nil_r; reflexivity|]);
    (split; [exact Hl | exact Hw]).
Qed.


Lemma appends_check_item (i : Z) (d : list (string * json)) : appends (check_item i d).
Proof.
  intros self. destruct (check_item_errors i d self) as [He [Hl Hw]].
  split; [exact Hl|]. split; [eexists; exact He | exact Hw].
Qed.

Lemma appends_bind {A B} (m : M A) (k : A -> M B) :
  appends m -> (forall a, appends (k a)) -> appends (bind m k).
Proof.
  intros Hm Hk self. unfold bind. specialize (Hm self).
  destruct (m self) as [a s1|e s1]; simpl in Hm.
  - apply (appends_only_trans _ s1); [exact Hm | apply Hk].
  - exact Hm.
Qed.

Lemma appends_for_enumerate {A} (body : Z -> A -> M unit) (l : list A) :
  (forall j y, appends (body j y)) -> forall start, appends (for_enumerate start l body).
Proof.
  intros Hb. induction l as [|x r IH]; intros start; simpl.
  - intros self. apply appends_only_refl.
  - apply appends_bind; [apply Hb|]. intros _. apply IH.
Qed.

Lemma appends_add_error (text : string) : appends (add_error text).
Proof.
  intros self. split; [reflexivity|]. split.
  - exists [text]. reflexivity.
  - exists []. simpl. rewrite app_nil_r. reflexivity.
Qed.

Lemma appends_check_structure (data : json) : appends (_check_structure data).
Proof.
  destruct data; try apply appends_add_error.
  unfold _check_structure. apply appends_bind.
  - apply warns_appends. auto with frame.
  - intros _. apply appends_for_enumerate. intros j y.
    destruct (is_dict y); simpl.
    + apply warns_appends, warns_ret.
    + apply appends_bind; [apply warns_appends, warns_get_line_info|].
      intros li. apply appends_add_error.
Qed.

Lemma appends_check_content (data : json) : appends (_check_content data).
Proof.
  destruct data; try (apply warns_appends, warns_ret).
  unfold _check_content. apply appends_for_enumerate. intros j y.
  destruct y; try (apply warns_appends, warns_ret). apply appends_check_item.
Qed.

Lemma checks_only_append_frame (data : json) (self : linter) :
  appends_only self (final ((_check_structure data ;;; _check_content data) self)).
Proof.
  apply (appends_bind (_check_structure data) (fun _ => _check_content data)).
  - apply appends_check_structure.
  - intros _. apply appends_check_content.
Qed.

(** X2. Findings are only ever added. Whatever the document and the
    instance, and whether the checks return or raise, the structure check
    followed by the field check leaves the line map as it was and keeps the
    errors and warnings already recorded, in place, at the front of the two
    lists. *)
Theorem checks_only_append (data : json) (self : linter) :
  let s' := final ((_check_structure data ;;; _check_content data) self) in
  line_map s' = line_map self /\
  (exists e : list string, errors s' = (errors self ++ e)%list) /\
  (exists w : list string, warnings s' = (warnings self ++ w)%list).
Proof.
  cbv zeta.
  apply (appends_bind (_check_structure data) (fun _ => _check_content data)).
  - apply appends_check_structure.
  - intros _. apply appends_check_content.
Qed.

Lemma structure_loop_spec (items : list json) :
  forall (start : Z) (self : linter),
    for_enumerate start items
      (fun i item =>
         when (negb (is_dict item))
           (line_info <- _get_line_info i ;;
            add_error ("Item " +:+ pretty i +:+ " should be an object" +:+ line_info)))
      self =
    Ok tt (Linter (errors self ++ structure_errors self start items)
                  (warnings self) (line_map self)).
Proof.
  induction items as [|x r IH]; intros start self; simpl.
  - unfold ret. rewrite app_nil_r. destruct self; reflexivity.
  - unfold bind at 1. destruct (is_dict x); unfold when; cbn [negb].
    + unfold ret. rewrite IH. reflexivity.
    + unfold bind at 1. rewrite get_line_info_eq. unfold add_error.
      rewrite IH. simpl. rewrite <- app_assoc. simpl.
      rewrite (structure_errors_ext _ self r); [reflexivity|reflexivity].
Qed.

Lemma check_structure_spec (items : list json) (self : linter) :
  _check_structure (JArr items) self =
  Ok tt (Linter (errors self ++ structure_errors self 0 items)
                (warnings self ++ match items with
                                  | [] => ["Array is empty"]
                                  | _ => []
                                  end)
                (line_map self)).
Proof.
  unfold _check_structure. unfold bind at 1.
  destruct items as [|x r].
  - simpl. unfold ret. rewrite app_nil_r. reflexivity.
  - change (when (Z.of_nat (List.length (x :: r)) =? 0) (add_warning "Array is empty") self)
      with (when (Z.pos (Pos.of_succ_nat (List.length r)) =? 0)
              (add_warning "Array is empty") self).
    simpl when. unfold ret. rewrite structure_loop_spec.
    rewrite app_nil_r. reflexivity.
Qed.

(** X1. The structure check of an array never raises. It adds one error per
    element that is not an object, in index order, each reading "Item i
    should be an object" with the line suffix of i, so as many errors as
    there are such elements; it adds the warning "Array is empty" exactly
    when the array has no element; it leaves the line map alone. *)
Theorem check_structure_findings (items : list json) (self : linter) :
  _check_structure (JArr items) self =
  Ok tt (Linter (errors self ++ structure_errors self 0 items)
                (warnings self ++ match items with
                                  | [] => ["Array is empty"]
                                  | _ => []
                                  end)
                (line_map self)) /\
  List.length (structure_errors self 0 items)
  = List.length (List.filter (fun item => negb (is_dict item)) items).
Proof.
  split; [apply check_structure_spec|].
  generalize 0. induction items as [|x r IH]; intros start; simpl; [reflexivity|].
  rewrite length_app, IH. destruct (is_dict x); reflexivity.
Qed.

Lemma content_loop_ok (items : list json) :
  forall (start : Z) (self s' : linter),
    for_enumerate start items
      (fun i item => match item with
                     | JObj d => check_item i d
                     | _ => ret tt
                     end) self = Ok tt s' ->
    errors s' = (errors self ++ content_errors self start items)%list /\
    line_map s' = line_map self.
Proof.
  induction items as [|x r IH]; intros start self s'; simpl.
  - unfold ret. intros [= <-]. rewrite app_nil_r. auto.
  - unfold bind at 1.
    destruct (match x with JObj d => check_item start d | _ => ret tt end self)
      as [[] s1|e s1] eqn:Hx; [|discriminate].
    intros Hr. apply IH in Hr. destruct Hr as [He Hl].
    assert (errors s1 = (errors self ++
              match x with JObj d => missing_errors self start d | _ => [] end)%list
            /\ line_map s1 = line_map self) as [He1 Hl1].
    { destruct x; try (injection Hx as <-; rewrite app_nil_r; auto).
      pose proof (check_item_errors start m self) as H. cbv zeta in H.
      rewrite Hx in H. simpl in H. destruct H as [H1 [H2 _]]. auto. }
    split; [|congruence].
    rewrite He, He1, <- app_assoc.
    rewrite (content_errors_ext s1 self r Hl1). reflexivity.
Qed.

Lemma missing_errors_nil (self : linter) (i : Z) (d : list (string * json)) :
  missing_errors self i d = [] <-> dict_has "tagKey" d && dict_has "value" d = true.
Proof.
  unfold missing_errors.
  destruct (dict_has "tagKey" d); destruct (dict_has "value" d); simpl;
    split; intros H; first [reflexivity | discriminate H].
Qed.

Lemma no_errors_iff (self : linter) (items : list json) :
  forall a b : Z,
    (structure_errors self a items ++ content_errors self b items)%list = [] <->
    forallb has_both_keys items = true.
Proof.
  induction items as [|x r IH]; intros a b; simpl.
  - split; reflexivity.
  - rewrite andb_true_iff, <- (IH (a + 1) (b + 1)).
    destruct x; simpl;
      try (split; [intros H; discriminate H | intros [H _]; discriminate H]).
    rewrite <- missing_errors_nil.
    split.
    + intros H. apply app_eq_nil in H. destruct H as [H1 H2].
      apply app_eq_nil in H2. destruct H2 as [H2 H3].
      rewrite H1, H2, H3. auto.
    + intros [H1 H2]. apply app_eq_nil in H2. destruct H2 as [H2 H3].
      rewrite H1, H2, H3. reflexivity.
Qed.

End Frame.

(** ** The tag rules, one by one *)

Module TagRules.

Import Rules.

Lemma string_app_inv_head (s a b : string) : s +:+ a = s +:+ b -> a = b.
Proof.
  induction s as [|c s IH]; simpl; [auto|]. intros [= H]. auto.
Qed.

Lemma eq_str_false (k s : string) : k <> s -> eq_str (JStr k) s = false.
Proof. intros H. simpl. apply String.eqb_neq. exact H. Qed.

Lemma existsb_filter_nonempty (words : list string) :
  existsb first_isupper (filter (fun word => negb (String.eqb word "")) words)
  = existsb first_isupper words.
Proof.
  induction words as [|w r IH]; [reflexivity|].
  rewrite filter_cons. destruct (decide _) as [H|H].
  - simpl. rewrite IH. reflexivity.
  - destruct w as [|c w]; [exact IH|]. exfalso. apply H. exact I.
Qed.

(** The field check of an object whose two fields are strings, with a tag
    key that has no rule. *)
Lemma check_item_unregistered (i : Z) (item : list (string * json)) (k v : string)
    (self : linter) :
  dict_lookup "tagKey" item = Some (JStr k) ->
  dict_lookup "value" item = Some (JStr v) ->
  ~ In k registered_keys ->
  check_item i item self =
  Ok tt (Linter (errors self)
           (warnings self
            ++ (if String.eqb (PyStr.strip k) ""
                then [empty_key_warning i (line_info_of self i)] else [])
            ++ (if String.eqb (PyStr.strip v) ""
                then [empty_value_warning k (line_info_of self i)] else []))
           (line_map self)).
Proof.
  intros Hk Hv Hn.
  unfold check_item. unfold bind at 1. rewrite get_line_info_eq.
  set (li := line_info_of self i).
  rewrite (dict_has_Some _ _ _ Hk), (dict_has_Some _ _ _ Hv).
  unfold _check_specific_tag_values, dict_item, dict_get. rewrite Hk, Hv.
  rewrite !eq_str_false by (intros ->; apply Hn; simpl; auto).
  unfold empty_key_warning, empty_value_warning. run_monad.
  destruct (PyStr.strip k =? "")%string; destruct (PyStr.strip v =? "")%string;
    run_monad; simpl; rewrite <- ?app_assoc, ?app_nil_r;
    destruct self; reflexivity.
Qed.

(** X4. A tag key without a rule is accepted silently: when "tagKey" is
    absent, is not a string, or is a string other than the four registered
    keys (compared exactly, so also with another letter case), the dispatch
    returns with the instance unchanged, whatever the value is. *)
Theorem unregistered_key_is_ignored (item : list (string * json)) (index : Z)
    (line_info : string) (self : linter) :
  (forall k, dict_lookup "tagKey" item = Some (JStr k) -> ~ In k registered_keys) ->
  _check_specific_tag_values item index line_info self = Ok tt self.
Proof.
  intros Hn. unfold _check_specific_tag_values, dict_get.
  destruct (dict_lookup "tagKey" item) as [[| | | |k| |]|]; try reflexivity.
  specialize (Hn k eq_refl).
  rewrite !eq_str_false by (intros ->; apply Hn; simpl; auto).
  reflexivity.
Qed.

Lemma unregistered_key_is_ignored_witness :
  _check_specific_tag_values
    [("tagKey", JStr "environment"); ("value", JStr "qa")] 0 "" init = Ok tt init.
Proof.
  apply unregistered_key_is_ignored.
  intros k [= <-]. vm_compute. intuition discriminate.
Defined.




Lemma check_item_data_classification (i : Z) (item : list (string * json))
    (v : string) (self : linter) :
  dict_lookup "tagKey" item = Some (JStr "Data Classification") ->
  dict_lookup "value" item = Some (JStr v) ->
  v <> "" ->
  check_item i item self =
  Ok tt (Linter (errors self)
           (warnings self
            ++ (if String.eqb (PyStr.strip v) ""
                then [empty_value_warning "Data Classification" (line_info_of self i)]
                else [])
            ++ (if PyStr.mem v classifications
                then []
                else [classification_warning v (line_info_of self i)]))
           (line_map self)).
Proof.
  intros Hk Hv Hne.
  unfold check_item. unfold bind at 1. rewrite get_line_info_eq.
  set (li := line_info_of self i).
  rewrite (dict_has_Some _ _ _ Hk), (dict_has_Some _ _ _ Hv).
  unfold _check_specific_tag_values, dict_item, dict_get. rewrite Hk, Hv.
  change (eq_str (JStr "Data Classification") "Data Classification") with true.
  cbv iota. unfold _validate_data_classification.
  rewrite (truthy_str v Hne).
  change (in_strs (JStr v) ["DCL1"; "DCL2"; "DCL3"; "DCL4"])
    with (PyStr.mem v classifications).
  change (PyStr.join ", " ["DCL1"; "DCL2"; "DCL3"; "DCL4"])
    with "DCL1, DCL2, DCL3, DCL4".
  unfold classification_warning, empty_value_warning. run_monad.
  change (PyStr.strip "Data Classification" =? "")%string with false.
  destruct (PyStr.strip v =? "")%string; destruct (PyStr.mem v classifications);
    run_monad; simpl; rewrite <- ?app_assoc, ?app_nil_r;
    destruct self; reflexivity.
Qed.

(** X6. For an item whose "tagKey" is "Data Classification" and whose
    "value" is a non-empty string, the "Invalid Data Classification" warning
    is among the warnings the item adds if and only if the value is not, as
    it is written, one of DCL1, DCL2, DCL3, DCL4; the item adds no error. *)
Theorem data_classification_rule (i : Z) (item : list (string * json))
    (v : string) (self : linter) :
  dict_lookup "tagKey" item = Some (JStr "Data Classification") ->
  dict_lookup "value" item = Some (JStr v) ->
  v <> "" ->
  exists new : list string,
    check_item i item self =
    Ok tt (Linter (errors self) (warnings self ++ new) (line_map self)) /\
    (In (classification_warning v (line_info_of self i)) new <->
     ~ In v classifications).
Proof.
  intros Hk Hv Hne. eexists.
  split; [exact (check_item_data_classification i item v self Hk Hv Hne)|].
  rewrite in_app_iff.
  destruct (PyStr.mem v classifications) eqn:Hm.
  - apply mem_In in Hm. split; [|tauto].
    intros [H|[]]. destruct (PyStr.strip v =? "")%string; [|destruct H].
    destruct H as [H|[]]. discriminate H.
  - split.
    + intros _ H. apply mem_In in H. congruence.
    + intros _. right. left. reflexivity.
Qed.

Lemma data_classification_rule_witness :
  exists new : list string,
    check_item 0 [("tagKey", JStr "Data Classification"); ("value", JStr "dcl1")] init =
    Ok tt (Linter [] ([] ++ new) ∅) /\
    (In (classification_warning "dcl1" (line_info_of init 0)) new <->
     ~ In "dcl1" classifications).
Proof.
  apply (data_classification_rule 0
           [("tagKey", JStr "Data Classification"); ("value", JStr "dcl1")] "dcl1" init).
  - reflexivity.
  - reflexivity.
  - discriminate.
Defined.

Lemma check_item_owning_business_group (i : Z) (item : list (string * json))
    (v : string) (self : linter) :
  dict_lookup "tagKey" item = Some (JStr "Owning Business group") ->
  dict_lookup "value" item = Some (JStr v) ->
  v <> "" ->
  check_item i item self =
  Ok tt (Linter (errors self)
           (warnings self
            ++ (if String.eqb (PyStr.strip v) ""
                then [empty_value_warning "Owning Business group" (line_info_of self i)]
                else [])
            ++ (if Z.of_nat (String.length v) <? 5
                then [owning_short_warning v (line_info_of self i)]
                else [])
            ++ (if existsb first_isupper (PyStr.split_ws v)
                then []
                else [capitalization_warning v (line_info_of self i)]))
           (line_map self)).
Proof.
  intros Hk Hv Hne.
  unfold check_item. unfold bind at 1. rewrite get_line_info_eq.
  set (li := line_info_of self i).
  rewrite (dict_has_Some _ _ _ Hk), (dict_has_Some _ _ _ Hv).
  unfold _check_specific_tag_values, dict_item, dict_get. rewrite Hk, Hv.
  change (eq_str (JStr "Owning Business group") "Data Classification") with false.
  change (eq_str (JStr "Owning Business group") "Business Groups") with false.
  change (eq_str (JStr "Owning Business group") "Owning Business group") with true.
  cbv iota. unfold _validate_owning_business_group.
  rewrite (truthy_str v Hne).
  unfold owning_short_warning, capitalization_warning, empty_value_warning.
  run_monad. rewrite existsb_filter_nonempty.
  change (PyStr.strip "Owning Business group" =? "")%string with false.
  destruct (PyStr.strip v =? "")%string;
    destruct (Z.of_nat (String.length v) <? 5);
    destruct (existsb first_isupper (PyStr.split_ws v));
    run_monad; simpl; rewrite <- ?app_assoc, ?app_nil_r;
    destruct self; reflexivity.
Qed.

(** X7. For an item whose "tagKey" is "Owning Business group" and whose
    "value" is a non-empty string, the "too short" warning is added if and
    only if the value has fewer than 5 characters, and the "proper
    capitalization" warning is added if and only if no whitespace-separated
    word of the value begins with an uppercase letter; the item adds no
    error. *)
Theorem owning_business_group_rule (i : Z) (item : list (string * json))
    (v : string) (self : linter) :
  dict_lookup "tagKey" item = Some (JStr "Owning Business group") ->
  dict_lookup "value" item = Some (JStr v) ->
  v <> "" ->
  exists new : list string,
    check_item i item self =
    Ok tt (Linter (errors self) (warnings self ++ new) (line_map self)) /\
    (In (owning_short_warning v (line_info_of self i)) new <->
     (String.length v < 5)%nat) /\
    (In (capitalization_warning v (line_info_of self i)) new <->
     forall word, In word (PyStr.split_ws v) -> first_isupper word = false).
Proof.
  intros Hk Hv Hne. eexists.
  split; [exact (check_item_owning_business_group i item v self Hk Hv Hne)|].
  set (li := line_info_of self i).
  assert (owning_short_warning v li <> capitalization_warning v li) as Hd.
  { unfold owning_short_warning, capitalization_warning. intros H.
    apply (string_app_inv_head "Owning Business group '") in H.
    apply string_app_inv_head in H. discriminate H. }
  assert (forall l, In l (if (PyStr.strip v =? "")%string
                          then [empty_value_warning "Owning Business group" li]
                          else []) ->
                    l <> owning_short_warning v li /\ l <> capitalization_warning v li)
    as He.
  { intros l H. destruct (PyStr.strip v =? "")%string; [|destruct H].
    destruct H as [<-|[]]. split; discriminate. }
  assert (existsb first_isupper (PyStr.split_ws v) = false <->
          forall word, In word (PyStr.split_ws v) -> first_isupper word = false) as Hc.
  { split.
    - intros H word Hw. destruct (first_isupper word) eqn:Hu; [|reflexivity].
      assert (existsb first_isupper (PyStr.split_ws v) = true) as Ht
        by (apply existsb_exists; eauto).
      congruence.
    - intros H. destruct (existsb first_isupper (PyStr.split_ws v)) eqn:Hx;
        [|reflexivity].
      apply existsb_exists in Hx. destruct Hx as [w [Hw Hu]].
      rewrite (H w Hw) in Hu. discriminate Hu. }
  rewrite <- Hc. rewrite !in_app_iff. split.
  - destruct (Z.ltb_spec (Z.of_nat (String.length v)) 5) as [Hlt|Hge].
    + split; [intros _; lia|]. intros _. right. left. left. reflexivity.
    + split; [|intros H; lia].
      intros [H|[H|H]].
      * apply He in H. tauto.
      * destruct H.
      * destruct (existsb first_isupper (PyStr.split_ws v)); [destruct H|].
        destruct H as [H|[]]. congruence.
  - destruct (existsb first_isupper (PyStr.split_ws v)).
    + split; [|intros H; discriminate H].
      intros [H|[H|H]].
      * apply He in H. tauto.
      * destruct (Z.of_nat (String.length v) <? 5); [|destruct H].
        destruct H as [H|[]]. congruence.
      * destruct H.
    + split; [intros _; reflexivity|]. intros _. right. right. left. reflexivity.
Qed.

Lemma owning_business_group_rule_witness :
  exists new : list string,
    check_item 0 [("tagKey", JStr "Owning Business group"); ("value", JStr "ops")] init =
    Ok tt (Linter [] ([] ++ new) ∅) /\
    (In (owning_short_warning "ops" (line_info_of init 0)) new <->
     (String.length "ops" < 5)%nat) /\
    (In (capitalization_warning "ops" (line_info_of init 0)) new <->
     forall word, In word (PyStr.split_ws "ops") -> first_isupper word = false).
Proof.
  apply (owning_business_group_rule 0
           [("tagKey", JStr "Owning Business group"); ("value", JStr "ops")] "ops" init).
  - reflexivity.
  - reflexivity.
  - discriminate.
Defined.


(** X8. For an item whose "tagKey" is "Business Groups" and whose "value" is
    a non-empty string, the "should start with one of" warning is added if
    and only if the lowercased value starts with none of gip, eng, ops, fin;
    the item adds no error. *)
Theorem business_groups_prefix_rule (i : Z) (item : list (string * json))
    (v : string) (self : linter) :
  dict_lookup "tagKey" item = Some (JStr "Business Groups") ->
  dict_lookup "value" item = Some (JStr v) ->
  v <> "" ->
  exists new : list string,
    check_item i item self =
    Ok tt (Linter (errors self) (warnings self ++ new) (line_map self)) /\
    (In (prefix_warning v (line_info_of self i)) new <->
     forall p, In p ["gip"; "eng"; "ops"; "fin"] ->
               PyStr.startswith (PyStr.lower v) p = false).
Proof.
  intros Hk Hv Hne. eexists.
  split; [exact (check_item_business_groups i item v self Hk Hv Hne)|].
  set (li := line_info_of self i).
  assert (has_valid_prefix v = false <->
          forall p, In p ["gip"; "eng"; "ops"; "fin"] ->
                    PyStr.startswith (PyStr.lower v) p = false) as Hc.
  { unfold has_valid_prefix. split.
    - intros H p Hp. destruct (PyStr.startswith (PyStr.lower v) p) eqn:Hs; [|reflexivity].
      assert (existsb (PyStr.startswith (PyStr.lower v)) ["gip"; "eng"; "ops"; "fin"]
              = true) as Ht by (apply existsb_exists; eauto).
      congruence.
    - intros H. destruct (existsb _ _) eqn:Hx; [|reflexivity].
      apply existsb_exists in Hx. destruct Hx as [p [Hp Hs]].
      rewrite (H p Hp) in Hs. discriminate Hs. }
  rewrite <- Hc. rewrite !in_app_iff. destruct (has_valid_prefix v).
  - split; [|intros H; discriminate H].
    intros [H|[H|H]].
    + destruct (PyStr.strip v =? "")%string; [|destruct H].
      destruct H as [H|[]]. discriminate H.
    + destruct (Z.of_nat (String.length v) <? 2); [|destruct H].
      destruct H as [H|[]]. discriminate H.
    + destruct H.
  - split; [intros _; reflexivity|]. intros _. right. right. left. reflexivity.
Qed.

Lemma business_groups_prefix_rule_witness :
  exists new : list string,
    check_item 0 [("tagKey", JStr "Business Groups"); ("value", JStr "g")] init =
    Ok tt (Linter [] ([] ++ new) ∅) /\
    (In (prefix_warning "g" (line_info_of init 0)) new <->
     forall p, In p ["gip"; "eng"; "ops"; "fin"] ->
               PyStr.startswith (PyStr.lower "g") p = false).
Proof.
  apply (business_groups_prefix_rule 0
           [("tagKey", JStr "Business Groups"); ("value", JStr "g")] "g" init).
  - reflexivity.
  - reflexivity.
  - discriminate.
Defined.

(** X9. For an object with neither "tagKey" nor "value", the item adds
    exactly two errors, "Missing 'tagKey' at position i" and then "Missing
    'value' for 'Item i'" (the label falls back to the position), each with
    the line suffix of i; it adds no warning and raises nothing. *)
Theorem empty_object_errors (i : Z) (item : list (string * json)) (self : linter) :
  dict_lookup "tagKey" item = None ->
  dict_lookup "value" item = None ->
  check_item i item self =
  Ok tt (Linter (errors self ++
                 ["Missing 'tagKey' at position " +:+ pretty i +:+ line_info_of self i;
                  "Missing 'value' for 'Item " +:+ pretty i +:+ "'" +:+ line_info_of self i])
                (warnings self) (line_map self)).
Proof.
  intros Hk Hv.
  unfold check_item. unfold bind at 1. rewrite get_line_info_eq.
  set (li := line_info_of self i).
  rewrite (dict_has_None _ _ Hk), (dict_has_None _ _ Hv).
  unfold _check_specific_tag_values, dict_get. rewrite Hk, Hv.
  run_monad. destruct self as [es ws lm]. simpl.
  rewrite <- app_assoc. reflexivity.
Qed.

Lemma empty_object_errors_witness :
  check_item 2 [] init =
  Ok tt (Linter ([] ++
                 ["Missing 'tagKey' at position " +:+ pretty 2 +:+ line_info_of init 2;
                  "Missing 'value' for 'Item " +:+ pretty 2 +:+ "'" +:+ line_info_of init 2])
                [] ∅).
Proof.
  apply (empty_object_errors 2 [] init); reflexivity.
Defined.

End TagRules.

(** ** Runs of [lint_file] and of the program *)

Module Runs.

Import Rules.

Lemma lint_file_decoded (rt : runtime) (filename content : string) (data : json)
    (self : linter) :
  read_file rt filename = inr content ->
  json_loads rt content = inr data ->
  lint_file rt filename self =
  match (_check_structure data ;;; _check_content data)
          (Linter [] [] (text_line_map content)) with
  | Ok _ s => Run (_print_results s) (Ok (Z.of_nat (List.length (errors s)) =? 0) s)
  | Raise e s => Run [] (Raise e s)
  end.
Proof.
  intros Hr Hl. unfold lint_file. rewrite Hr, Hl.
  unfold bind at 1. rewrite LineIndex.build_line_map_spec. reflexivity.
Qed.

Lemma length_zero_iff (l : list string) : (Z.of_nat (List.length l) =? 0) = true <-> l = [].
Proof.
  destruct l; simpl; split; intros H; first [reflexivity | discriminate H].
Qed.

Lemma array_checks_errors (items : list json) (s0 s : linter) :
  (_check_structure (JArr items) ;;; _check_content (JArr items)) s0 = Ok tt s ->
  errors s = (errors s0 ++ structure_errors s0 0 items ++ content_errors s0 0 items)%list /\
  line_map s = line_map s0 /\
  exists s1, _check_content (JArr items) s1 = Ok tt s.
Proof.
  unfold bind. rewrite Frame.check_structure_spec.
  intros Hc. pose proof Hc as Hc2.
  apply Frame.content_loop_ok in Hc2. destruct Hc2 as [He Hm]. simpl in He, Hm.
  split; [|split; [exact Hm | eexists; exact Hc]].
  rewrite He, <- app_assoc. f_equal. f_equal.
  apply Frame.content_errors_ext. reflexivity.
Qed.

(** X10. When [lint_file] returns on a document that is an array, the error
    list is exactly the structure errors, in index order, followed by the
    missing-key errors, in index order, and the value returned is True if and
    only if every element is an object that has both "tagKey" and "value";
    warnings play no part. *)
Theorem verdict_of_array (rt : runtime) (filename content : string)
    (items : list json) (self s : linter) (out : list printed) (b : bool) :
  read_file rt filename = inr content ->
  json_loads rt content = inr (JArr items) ->
  lint_file rt filename self = Run out (Ok b s) ->
  errors s = (structure_errors s 0 items ++ content_errors s 0 items)%list /\
  (b = true <-> forallb has_both_keys items = true).
Proof.
  intros Hr Hl Hrun. rewrite (lint_file_decoded rt filename content _ self Hr Hl) in Hrun.
  destruct ((_check_structure (JArr items) ;;; _check_content (JArr items)) _)
    as [[] s1|e s1] eqn:Hc; [|discriminate Hrun].
  injection Hrun as _ <- <-.
  apply array_checks_errors in Hc. destruct Hc as [He [Hm _]]. simpl in He, Hm.
  assert (errors s1 = (structure_errors s1 0 items ++ content_errors s1 0 items)%list)
    as Herr.
  { rewrite He.
    rewrite (Frame.structure_errors_ext _ s1 items) by (symmetry; exact Hm).
    rewrite (Frame.content_errors_ext _ s1 items) by (symmetry; exact Hm).
    reflexivity. }
  split; [exact Herr|].
  rewrite length_zero_iff, Herr. apply Frame.no_errors_iff.
Qed.

Lemma verdict_of_array_witness :
  errors (Linter ["Missing 'tagKey' at position 0 (line 1)"] [] {[ 0 := 1 ]}) =
  (structure_errors (Linter ["Missing 'tagKey' at position 0 (line 1)"] [] {[ 0 := 1 ]})
     0 [JObj [("value", JStr "x")]] ++
   content_errors (Linter ["Missing 'tagKey' at position 0 (line 1)"] [] {[ 0 := 1 ]})
     0 [JObj [("value", JStr "x")]])%list /\
  (false = true <-> forallb has_both_keys [JObj [("value", JStr "x")]] = true).
Proof.
  apply (verdict_of_array (one_file_runtime missing_key_text missing_key_data)
           "tags.json" missing_key_text [JObj [("value", JStr "x")]] init _
           [PErrorCount 1; PBullet "Missing 'tagKey' at position 0 (line 1)"]).
  - reflexivity.
  - reflexivity.
  - vm_compute. reflexivity.
Defined.

(** X11. The line map depends on the text alone. Whatever the text decodes
    to, and whether the checks return or raise, the instance [lint_file]
    leaves has the line map built from the text: index i is bound to the line
    of the i-th line that contains an opening brace, and to nothing else. *)
Theorem line_map_is_from_text (rt : runtime) (filename content : string)
    (data : json) (self : linter) :
  read_file rt filename = inr content ->
  json_loads rt content = inr data ->
  forall i : Z,
    line_map (instance_after (lint_file rt filename self)) !! i = recorded content i.
Proof.
  intros Hr Hl i. rewrite (lint_file_decoded rt filename content data self Hr Hl).
  pose proof (Frame.checks_only_append_frame data (Linter [] [] (text_line_map content)))
    as [Hm _].
  destruct ((_check_structure data ;;; _check_content data) _) as [[] s|e s];
    simpl in Hm; unfold instance_after; simpl; rewrite Hm;
    apply LineIndex.build_line_map_lookup.
Qed.

Lemma line_map_is_from_text_witness :
  line_map (instance_after
              (lint_file (one_file_runtime numeric_key_text numeric_key_data)
                 "tags.json" init)) !! 0
  = recorded numeric_key_text 0.
Proof.
  apply (line_map_is_from_text (one_file_runtime numeric_key_text numeric_key_data)
           "tags.json" numeric_key_text numeric_key_data init); reflexivity.
Defined.


Lemma structure_errors_dicts (self : linter) (items : list json) :
  Forall (fun x => is_dict x = true) items ->
  forall start, structure_errors self start items = [].
Proof.
  induction 1 as [|x r Hx _ IH]; intros start; simpl; [reflexivity|].
  rewrite Hx, IH. reflexivity.
Qed.

Lemma content_loop_plain (items : list json) :
  Forall plain_item items ->
  forall (start : Z) (self : linter),
    for_enumerate start items
      (fun i item => match item with
                     | JObj d => check_item i d
                     | _ => ret tt
                     end) self = Ok tt self.
Proof.
  induction 1 as [|x r Hx _ IH]; intros start self; simpl; [reflexivity|].
  destruct Hx as [d [k [v [-> [Hk [Hv [Ek [Ev Hn]]]]]]]].
  unfold bind. rewrite (TagRules.check_item_unregistered start d k v self Hk Hv Hn).
  destruct (String.eqb_spec (PyStr.strip k) ""); [contradiction|].
  destruct (String.eqb_spec (PyStr.strip v) ""); [contradiction|].
  simpl. rewrite app_nil_r. destruct self as [es ws lm]. apply IH.
Qed.

(** X12. A document with nothing to report passes clean: when the file
    decodes to a non-empty array in which every element is an object whose
    "tagKey" and "value" are strings that are not blank and whose tag key has
    no rule, [lint_file] records no error and no warning, prints the single
    "No issues found" line and returns True. *)
Theorem plain_document_passes (rt : runtime) (filename content : string)
    (items : list json) (self : linter) :
  read_file rt filename = inr content ->
  json_loads rt content = inr (JArr items) ->
  items <> [] ->
  Forall plain_item items ->
  lint_file rt filename self =
  Run [PNoIssues] (Ok true (Linter [] [] (text_line_map content))).
Proof.
  intros Hr Hl Hne Hp.
  rewrite (lint_file_decoded rt filename content _ self Hr Hl).
  unfold bind. rewrite Frame.check_structure_spec.
  rewrite structure_errors_dicts.
  - unfold _check_content. rewrite (content_loop_plain items Hp).
    destruct items; [contradiction|]. reflexivity.
  - apply (Forall_impl _ _ _ Hp). intros x [d [k [v [-> _]]]]. reflexivity.
Qed.

Lemma plain_document_passes_witness :
  lint_file (one_file_runtime (tag_text "Owner" "team-a") (tag_data "Owner" "team-a"))
    "tags.json" init =
  Run [PNoIssues] (Ok true (Linter [] [] (text_line_map (tag_text "Owner" "team-a")))).
Proof.
  apply (plain_document_passes _ "tags.json" (tag_text "Owner" "team-a")
           [JObj [("tagKey", JStr "Owner"); ("value", JStr "team-a")]] init).
  - reflexivity.
  - reflexivity.
  - discriminate.
  - constructor; [|constructor].
    exists [("tagKey", JStr "Owner"); ("value", JStr "team-a")], "Owner", "team-a".
    repeat split; try reflexivity; try discriminate.
    vm_compute. intuition discriminate.
Defined.






(** X14. Called with any number of arguments other than one, the program
    writes the usage line and exits with status 1, without reading any
    file. *)
Theorem main_wrong_arity (rt : runtime) (argv : list string) :
  List.length argv <> 2%nat ->
  main rt argv = Process [CUsage] (inr 1).
Proof.
  intros H. destruct argv as [|a [|b [|c r]]]; simpl in H |- *;
    first [reflexivity | exfalso; apply H; reflexivity].
Qed.

Lemma main_wrong_arity_witness :
  main (one_file_runtime "[]" (JArr [])) ["simple_linter.py"; "a.json"; "b.json"]
  = Process [CUsage] (inr 1).
Proof.
  apply main_wrong_arity. simpl. lia.
Defined.

End Runs.

(** ** The report and the line index, further *)

Module Report.

Lemma bullets_map (l : list string) : bullets (map PBullet l) = l.
Proof. induction l as [|x r IH]; simpl; [reflexivity | rewrite IH; reflexivity]. Qed.

Lemma bullets_app (a b : list printed) : bullets (a ++ b) = (bullets a ++ bullets b)%list.
Proof.
  induction a as [|x r IH]; simpl; [reflexivity|].
  destruct x; simpl; rewrite IH; reflexivity.
Qed.

(** X15. The report is faithful to the two lists: its bulleted lines are
    exactly the errors followed by the warnings, in the order recorded; it is
    the single "No issues found" line if and only if both lists are empty;
    and it has an error header, carrying the number of errors, exactly when
    there is an error, and likewise a warning header. *)
Theorem print_results_faithful (self : linter) :
  bullets (_print_results self) = (errors self ++ warnings self)%list /\
  (_print_results self = [PNoIssues] <-> errors self = [] /\ warnings self = []) /\
  (forall n, In (PErrorCount n) (_print_results self) <->
             errors self <> [] /\ n = Z.of_nat (List.length (errors self))) /\
  (forall n, In (PWarningCount n) (_print_results self) <->
             warnings self <> [] /\ n = Z.of_nat (List.length (warnings self))).
Proof.
  assert (forall t (l : list string), In t (map PBullet l) -> exists x, t = PBullet x)
    as Hb.
  { intros t l H. apply in_map_iff in H. destruct H as [x [<- _]]. eauto. }
  destruct self as [es ws lm]. unfold _print_results. simpl errors. simpl warnings.
  destruct es as [|e es]; destruct ws as [|w ws].
  - simpl. split; [reflexivity|]. split; [tauto|].
    split; intros n; split.
    + intros [H|[]]. discriminate H.
    + intros [H _]. contradiction.
    + intros [H|[]]. discriminate H.
    + intros [H _]. contradiction.
  - split; [simpl; rewrite bullets_map; reflexivity|].
    split; [split; [intros H; discriminate H | intros [_ H]; discriminate H]|].
    split; intros n; split.
    + simpl. intros [H|[H|H]]; try discriminate H.
      apply Hb in H. destruct H as [x H]. discriminate H.
    + intros [H _]. contradiction.
    + simpl. intros [H|[H|H]]; try discriminate H.
      * injection H as <-. split; [discriminate | reflexivity].
      * apply Hb in H. destruct H as [x H]. discriminate H.
    + intros [_ ->]. left. reflexivity.
  - split; [rewrite !app_nil_r; simpl; rewrite bullets_map; reflexivity|].
    split; [split; [intros H; discriminate H | intros [H _]; discriminate H]|].
    rewrite app_nil_r.
    split; intros n; split.
    + simpl. intros [H|[H|H]]; try discriminate H.
      * injection H as <-. split; [discriminate | reflexivity].
      * apply Hb in H. destruct H as [x H]. discriminate H.
    + intros [_ ->]. left. reflexivity.
    + simpl. intros [H|[H|H]]; try discriminate H.
      apply Hb in H. destruct H as [x H]. discriminate H.
    + intros [H _]. contradiction.
  - split.
    { rewrite bullets_app.
      change (bullets (PErrorCount (Z.of_nat (List.length (e :: es)))
                       :: map PBullet (e :: es)))
        with (bullets (map PBullet (e :: es))).
      change (bullets (PWarningCount (Z.of_nat (List.length (w :: ws)))
                       :: map PBullet (w :: ws)))
        with (bullets (map PBullet (w :: ws))).
      rewrite !bullets_map. reflexivity. }
    split; [split; [intros H; discriminate H | intros [H _]; discriminate H]|].
    split; intros n; rewrite in_app_iff; split.
    + intros [[H|H]|[H|H]]; try discriminate H.
      * injection H as <-. split; [discriminate | reflexivity].
      * apply Hb in H. destruct H as [x H]. discriminate H.
      * apply Hb in H. destruct H as [x H]. discriminate H.
    + intros [_ ->]. left. left. reflexivity.
    + intros [[H|H]|[H|H]]; try discriminate H.
      * apply Hb in H. destruct H as [x H]. discriminate H.
      * injection H as <-. split; [discriminate | reflexivity].
      * apply Hb in H. destruct H as [x H]. discriminate H.
    + intros [_ ->]. right. left. reflexivity.
Qed.

End Report.

Module LineBounds.

Lemma brace_line_numbers_bounds (lines : list string) :
  forall (start : Z) (k : nat) (a : Z),
    brace_line_numbers start lines !! k = Some a ->
    start + Z.of_nat k <= a < start + Z.of_nat (List.length lines).
Proof.
  induction lines as [|line rest IH]; intros start k a; simpl.
  - intros H. discriminate H.
  - destruct (PyStr.contains "{" line).
    + destruct k as [|k]; simpl.
      * intros [= <-]. lia.
      * intros H. apply IH in H. lia.
    + intros H. apply IH in H. lia.
Qed.

(** X16. Every line the builder records lies in the text and not before the
    index can be reached: if, after building from an empty map, index i is
    bound to line n, then 0 <= i, i + 1 <= n, and n is at most the number of
    lines of the text. *)
Theorem recorded_line_bounds (content : string) (es ws : list string)
    (self' : linter) (i n : Z) :
  _build_line_map content (Linter es ws ∅) = Ok tt self' ->
  line_map self' !! i = Some n ->
  0 <= i /\ i + 1 <= n <= Z.of_nat (List.length (PyStr.split_char newline content)).
Proof.
  rewrite LineIndex.build_line_map_spec. intros [= <-]. simpl.
  rewrite LineIndex.build_line_map_lookup.
  unfold recorded, spec_line_index. destruct (decide (0 <= i)); [|discriminate].
  intros H. apply brace_line_numbers_bounds in H. lia.
Qed.

Lemma recorded_line_bounds_witness :
  0 <= 0 /\
  0 + 1 <= 1 <= Z.of_nat (List.length (PyStr.split_char newline missing_key_text)).
Proof.
  apply (recorded_line_bounds missing_key_text [] [] (Linter [] [] {[ 0 := 1 ]}) 0 1);
    reflexivity.
Defined.

Lemma contains_split (c sep : ascii) (s : string) :
  c <> sep ->
  PyStr.contains c s = existsb (PyStr.contains c) (PyStr.split_char sep s).
Proof.
  intros Hne. induction s as [|ch r IH]; simpl; [reflexivity|].
  destruct (Ascii.eqb_spec ch sep) as [->|Hd].
  - simpl. destruct (Ascii.eqb_spec c sep); [contradiction|]. simpl. exact IH.
  - destruct (PyStr.split_char sep r) as [|w ws] eqn:Hs; simpl in IH |- *.
    + rewrite IH. rewrite !orb_false_r. reflexivity.
    + rewrite IH, orb_assoc. reflexivity.
Qed.

Lemma brace_line_numbers_nil (lines : list string) :
  forall start,
    brace_line_numbers start lines = [] <->
    existsb (PyStr.contains "{") lines = false.
Proof.
  induction lines as [|line rest IH]; intros start; simpl; [tauto|].
  destruct (PyStr.contains "{" line); simpl.
  - split; intros H; discriminate H.
  - apply IH.
Qed.

(** X17. After building from an empty map, index 0 has a line if and only
    if the text contains an opening brace; for a text without one the line
    map stays empty and the lookup of every index gives the empty suffix. *)
Theorem line_map_empty_iff_no_brace (content : string) (es ws : list string)
    (self' : linter) :
  _build_line_map content (Linter es ws ∅) = Ok tt self' ->
  (is_Some (line_map self' !! 0) <-> PyStr.contains "{" content = true) /\
  (PyStr.contains "{" content = false ->
   line_map self' = ∅ /\ forall i, _get_line_info i self' = Ok "" self').
Proof.
  rewrite LineIndex.build_line_map_spec. intros [= <-]. simpl.
  assert (spec_line_index content = [] <-> PyStr.contains "{" content = false) as Hn.
  { unfold spec_line_index. rewrite brace_line_numbers_nil.
    rewrite <- (contains_split "{" newline content) by discriminate. tauto. }
  split.
  - rewrite LineIndex.build_line_map_lookup. unfold recorded. simpl.
    destruct (spec_line_index content) as [|x r] eqn:Hs.
    + split; [intros [x Hx]; discriminate Hx|].
      intros H. rewrite (proj1 Hn eq_refl) in H. discriminate H.
    + split; [|intros _; eexists; reflexivity].
      intros _. destruct (PyStr.contains "{" content); [reflexivity|].
      assert (x :: r = []) as Hx by (apply Hn; reflexivity). discriminate Hx.
  - intros H. apply Hn in H. rewrite H. simpl. split; [reflexivity|].
    intros i. unfold _get_line_info. simpl. rewrite lookup_empty. reflexivity.
Qed.

Lemma line_map_empty_iff_no_brace_witness :
  (is_Some ((∅ : gmap Z Z) !! 0) <-> PyStr.contains "{" "[]" = true) /\
  (PyStr.contains "{" "[]" = false ->
   (∅ : gmap Z Z) = ∅ /\ forall i, _get_line_info i (Linter [] [] ∅) = Ok "" (Linter [] [] ∅)).
Proof.
  apply (line_map_empty_iff_no_brace "[]" [] [] (Linter [] [] ∅)). reflexivity.
Defined.

End LineBounds.
